(** * A model of scrape.py: crawling one Discourse category

    The script pages through the category listing, keeps the topics created
    inside a fixed date range, loads each of them, flattens its posts into
    records and writes one file per topic, a combined file and a summary.

    What is modelled, and how:
    - decoded JSON documents are records; a key the script reads with
      [.get] is an [option] field, a key it subscripts on a post
      ([post["id"]], [post["post_number"]]) is an [option] field whose
      absence raises [KeyError]; a topic summary always carries [id],
      [slug] and [created_at]. A key that is present and holds [null] is
      told apart from an absent one for [accepted_answer] only: the
      other keys are taken to hold a value of their type when present;
    - the browser is a function from the URL visited to what the three
      page calls of the script yield there; [page.goto] is recorded in the
      list of requests, [json.dump] into an opened file in the list of
      writes;
    - [datetime.strptime], the HTML-to-text conversion and the clock are
      parameters of the development: every theorem holds for whatever they
      compute; executable instances are given below for the examples;
    - [print] is left out. *)

From Stdlib Require Import ZArith String Ascii Bool Lia.
From stdpp Require Import base option list strings gmap pretty.

Local Open Scope string_scope.

(** ** Exceptions and results *)

Inductive exn : Type :=
| ValueError
| KeyError (key : string)
| TimeoutError
| JSONDecodeError.

Inductive result (A : Type) : Type :=
| Ok (a : A)
| Raise (e : exn).
Arguments Ok {A} a.
Arguments Raise {A} e.

(** ** datetime *)

Record datetime : Type := Datetime {
  year : Z; month : Z; day : Z;
  hour : Z; minute : Z; second : Z; microsecond : Z }.

(** Naive datetimes compare field by field, most significant first. *)
Fixpoint lex_compare (a b : list Z) : comparison :=
  match a, b with
  | x :: a', y :: b' =>
      match Z.compare x y with
      | Eq => lex_compare a' b'
      | c => c
      end
  | [], [] => Eq
  | [], _ :: _ => Lt
  | _ :: _, [] => Gt
  end.

Definition fields (d : datetime) : list Z :=
  [year d; month d; day d; hour d; minute d; second d; microsecond d].

Definition datetime_compare (a b : datetime) : comparison :=
  lex_compare (fields a) (fields b).

(** [a <= b] on datetimes. *)
Definition datetime_le (a b : datetime) : bool :=
  match datetime_compare a b with
  | Gt => false
  | _ => true
  end.

(** [str.zfill] *)
Fixpoint zeros (n : nat) (s : string) : string :=
  match n with
  | O => s
  | S n' => String "0" (zeros n' s)
  end.

Definition zfill (width : nat) (s : string) : string :=
  zeros (width - String.length s) s.

(** [datetime.isoformat()] *)
Definition isoformat (d : datetime) : string :=
  zfill 4 (pretty (year d)) +:+ "-" +:+ zfill 2 (pretty (month d)) +:+ "-" +:+
  zfill 2 (pretty (day d)) +:+ "T" +:+ zfill 2 (pretty (hour d)) +:+ ":" +:+
  zfill 2 (pretty (minute d)) +:+ ":" +:+ zfill 2 (pretty (second d)) +:+
  (if (microsecond d =? 0)%Z then "" else "." +:+ zfill 6 (pretty (microsecond d))).

(** ** CONFIG *)

Definition BASE_URL : string := "https://discourse.onlinedegree.iitm.ac.in".
Definition CATEGORY_ID : Z := 34.
Definition CATEGORY_JSON_URL : string :=
  BASE_URL +:+ "/c/courses/tds-kb/" +:+ pretty CATEGORY_ID +:+ ".json".
Definition OUTPUT_DIR : string := "downloaded_threads".
Definition DATE_FROM : datetime := Datetime 2025 1 1 0 0 0 0.
Definition DATE_TO : datetime := Datetime 2025 4 14 0 0 0 0.

Definition FORMAT_FRACTION : string := "%Y-%m-%dT%H:%M:%S.%fZ".
Definition FORMAT_SECONDS : string := "%Y-%m-%dT%H:%M:%SZ".

(** [os.path.join(OUTPUT_DIR, name)] *)
Definition path_join (dir name : string) : string := dir +:+ "/" +:+ name.

(** ** Decoded JSON documents *)

(** One entry of [topic_list.topics]. *)
Record Topic : Type := {
  t_id : Z;
  t_slug : string;
  t_created_at : string;
  t_title : option string;
  t_category_id : option Z;
  t_tags : option (list string);
  t_views : option Z;
  t_like_count : option Z }.

Record Mention : Type := { m_username : option string }.

(** One entry of [post_stream.posts]. *)
Record Post : Type := {
  p_id : option Z;
  p_post_number : option Z;
  p_username : option string;
  p_created_at : option string;
  p_updated_at : option string;
  p_reply_to_post_number : option Z;
  p_like_count : option Z;
  p_cooked : option string;
  p_mentioned_users : option (list Mention) }.

Record TopicList : Type := { topics : option (list Topic) }.
Record PostStream : Type := { posts : option (list Post) }.

(** A decoded page body, seen through the keys the script reads.
    [accepted_answer] keeps the presence of the key apart from its value:
    [Some None] is a key that is there and holds [null]. *)
Record Json : Type := {
  topic_list : option TopicList;
  post_stream : option PostStream;
  accepted_answer : option (option Z);
  accepted_answer_post_id : option Z }.

(** [d.get(key, default)] *)
Definition get {A : Type} (field : option A) (default : A) : A :=
  match field with
  | Some v => v
  | None => default
  end.

(** [d[key]] *)
Definition subscript {A : Type} (key : string) (field : option A) : result A :=
  match field with
  | Some v => Ok v
  | None => Raise (KeyError key)
  end.

(** ** Output *)

Record PostData : Type := {
  topic_id : Z;
  topic_title : string;
  category_id : option Z;
  tags : list string;
  post_id : Z;
  post_number : Z;
  author : string;
  created_at : string;
  updated_at : string;
  reply_to_post_number : option Z;
  is_reply : bool;
  reply_count : nat;
  like_count : Z;
  is_accepted_answer : bool;
  mentioned_users : list string;
  url : string;
  content : string }.

Record TopicMetadata : Type := {
  tm_topic_id : Z;
  tm_title : string;
  tm_slug : string;
  tm_category_id : option Z;
  tm_tags : list string;
  tm_created_at : string;
  posts_count : nat;
  tm_views : Z;
  tm_like_count : Z;
  tm_url : string }.

Record Summary : Type := {
  scraped_at : string;
  date_range_from : string;
  date_range_to : string;
  total_topics : nat;
  total_posts : nat;
  s_category_id : Z;
  base_url : string;
  combined_posts : string;
  individual_topics : list string }.

(** What [json.dump] is given. *)
Inductive File : Type :=
| TopicFile (topic_metadata : TopicMetadata) (topic_posts : list PostData)
| CombinedFile (all_posts : list PostData)
| SummaryFile (summary : Summary).

(** ** The browser and the file system *)

(** What one visit yields: [page.goto(url)], then
    [json.loads(page.inner_text("pre"))], then [json.loads(page.content())]
    (the last one also when an earlier call failed). *)
Record PageLoad : Type := {
  goto : result unit;
  inner_text_json : result Json;
  content_json : result Json }.

Record World : Type := {
  requests : list string;
  writes : list (string * File) }.

(** A run either returns, raises, or has not left its [while True] loop
    within the given number of iterations. *)
Inductive outcome (A : Type) : Type :=
| Returns (a : A)
| Raises (e : exn)
| Running.
Arguments Returns {A} a.
Arguments Raises {A} e.
Arguments Running {A}.

Definition M (A : Type) : Type := World -> outcome A * World.

Definition ret {A : Type} (a : A) : M A := fun w => (Returns a, w).

Definition bind {A B : Type} (m : M A) (k : A -> M B) : M B :=
  fun w =>
    match m w with
    | (Returns a, w') => k a w'
    | (Raises e, w') => (Raises e, w')
    | (Running, w') => (Running, w')
    end.

Definition lift {A : Type} (r : result A) : M A :=
  fun w =>
    match r with
    | Ok a => (Returns a, w)
    | Raise e => (Raises e, w)
    end.

Declare Scope py_scope.
Delimit Scope py_scope with py.
Notation "x <- m ;; k" := (bind m (fun x => k))
  (at level 100, m at next level, right associativity) : py_scope.
Notation "m ;; k" := (bind m (fun _ => k))
  (at level 100, right associativity) : py_scope.

(** [for x in xs: acc = body(acc, x)], leaving at the first exception. *)
Fixpoint for_each {A B : Type} (body : B -> A -> M B) (acc : B) (xs : list A) : M B :=
  match xs with
  | [] => ret acc
  | x :: xs' => bind (body acc x) (fun acc' => for_each body acc' xs')
  end.

(** [page.goto(url)] without its result: the request is issued. *)
Definition visit (url : string) : M unit :=
  fun w => (Returns tt, {| requests := (requests w ++ [url])%list; writes := writes w |}).

(** [with open(path, "w") as f: json.dump(value, f)] *)
Definition dump (path : string) (value : File) : M unit :=
  fun w => (Returns tt, {| requests := requests w; writes := (writes w ++ [(path, value)])%list |}).

(** ** Executable instances of the library calls

    Reference implementations on ASCII text, used to run the script on
    concrete forums. [strptime] follows CPython's [_strptime]: the format
    becomes a pattern, a directive becomes the alternatives of its regular
    expression, the pattern is matched case-insensitively with
    backtracking, the whole text has to be consumed, and the fields have to
    name a date that [datetime] accepts. *)

Module Reference.

Inductive re : Type :=
| Range (lo hi : ascii)
| Seq (a b : re)
| Alt (a b : re)
| Eps.

Definition code (c : ascii) : nat := nat_of_ascii c.

Definition lower (c : ascii) : ascii :=
  if (65 <=? code c)%nat && (code c <=? 90)%nat then ascii_of_nat (code c + 32) else c.

Definition in_range_char (lo hi c : ascii) : bool :=
  ((code lo <=? code c)%nat && (code c <=? code hi)%nat)
  || ((code (lower lo) <=? code (lower c))%nat && (code (lower c) <=? code (lower hi))%nat
      && Ascii.eqb lo hi).

(** The texts left over after a match, most preferred first. *)
Fixpoint run (r : re) (s : string) : list string :=
  match r with
  | Range lo hi =>
      match s with
      | String c s' => if in_range_char lo hi c then [s'] else []
      | EmptyString => []
      end
  | Seq a b => flat_map (run b) (run a s)
  | Alt a b => (run a s ++ run b s)%list
  | Eps => [s]
  end.

Definition chr (c : ascii) : re := Range c c.
Definition digit : re := Range "0" "9".

(** [r{1,n}], greedy *)
Fixpoint upto (n : nat) (r : re) : re :=
  match n with
  | O => Eps
  | S n' => Seq r (Alt (upto n' r) Eps)
  end.

Definition directive (c : ascii) : option re :=
  if Ascii.eqb c "Y" then Some (Seq digit (Seq digit (Seq digit digit)))
  else if Ascii.eqb c "m" then
    Some (Alt (Seq (chr "1") (Range "0" "2")) (Alt (Seq (chr "0") (Range "1" "9")) (Range "1" "9")))
  else if Ascii.eqb c "d" then
    Some (Alt (Seq (chr "3") (Range "0" "1"))
         (Alt (Seq (Range "1" "2") digit)
         (Alt (Seq (chr "0") (Range "1" "9"))
         (Alt (Range "1" "9") (Seq (chr " ") (Range "1" "9"))))))
  else if Ascii.eqb c "H" then
    Some (Alt (Seq (chr "2") (Range "0" "3")) (Alt (Seq (Range "0" "1") digit) digit))
  else if Ascii.eqb c "M" then Some (Alt (Seq (Range "0" "5") digit) digit)
  else if Ascii.eqb c "S" then
    Some (Alt (Seq (chr "6") (Range "0" "1")) (Alt (Seq (Range "0" "5") digit) digit))
  else if Ascii.eqb c "f" then Some (upto 6 digit)
  else None.

(** A piece of the pattern: a literal character or a named group. *)
Inductive piece : Type :=
| Lit (c : ascii)
| Group (name : ascii) (r : re).

Fixpoint pattern (format : string) : option (list piece) :=
  match format with
  | EmptyString => Some []
  | String "%" EmptyString => None
  | String "%" (String c rest) =>
      match directive c, pattern rest with
      | Some r, Some ps => Some (Group c r :: ps)
      | _, _ => None
      end
  | String c rest =>
      match pattern rest with
      | Some ps => Some (Lit c :: ps)
      | None => None
      end
  end.

Definition consumed (s rest : string) : string :=
  String.substring 0 (String.length s - String.length rest) s.

(** Every match of the pattern at the start of the text, most preferred
    first, with the text of each group and what is left. *)
Fixpoint matches (ps : list piece) (s : string) : list (list (ascii * string) * string) :=
  match ps with
  | [] => [([], s)]
  | Lit c :: ps' =>
      flat_map (matches ps') (run (chr c) s)
  | Group name r :: ps' =>
      flat_map (fun rest =>
                  map (fun found => ((name, consumed s rest) :: fst found, snd found))
                      (matches ps' rest))
               (run r s)
  end.

(** [int(text)] for a text of digits, leading blanks allowed *)
Fixpoint to_int (acc : Z) (s : string) : Z :=
  match s with
  | EmptyString => acc
  | String c s' =>
      if Ascii.eqb c " " then to_int acc s'
      else to_int (10 * acc + Z.of_nat (code c - 48)) s'
  end.

Fixpoint group (name : ascii) (found : list (ascii * string)) : option string :=
  match found with
  | [] => None
  | (n, text) :: found' => if Ascii.eqb n name then Some text else group name found'
  end.

Definition field (name : ascii) (default : Z) (found : list (ascii * string)) : Z :=
  match group name found with
  | Some text => to_int 0 text
  | None => default
  end.

(** [s += "0" * (6 - len(s)); int(s)] *)
Definition fraction (found : list (ascii * string)) : Z :=
  match group "f" found with
  | Some text => (to_int 0 text * 10 ^ Z.of_nat (6 - String.length text))%Z
  | None => 0%Z
  end.

Definition is_leap (y : Z) : bool :=
  ((y mod 4 =? 0) && (negb (y mod 100 =? 0) || (y mod 400 =? 0)))%Z.

Definition days_in_month (y m : Z) : Z :=
  if (m =? 2)%Z then (if is_leap y then 29 else 28)%Z
  else if ((m =? 4) || (m =? 6) || (m =? 9) || (m =? 11))%Z then 30%Z
  else 31%Z.

(** The checks of the [datetime] constructor. *)
Definition valid (d : datetime) : bool :=
  ((1 <=? year d) && (year d <=? 9999) && (1 <=? month d) && (month d <=? 12)
   && (1 <=? day d) && (day d <=? days_in_month (year d) (month d))
   && (0 <=? hour d) && (hour d <=? 23) && (0 <=? minute d) && (minute d <=? 59)
   && (0 <=? second d) && (second d <=? 59)
   && (0 <=? microsecond d) && (microsecond d <=? 999999))%Z.

Definition strptime (date_str format : string) : option datetime :=
  match pattern format with
  | None => None
  | Some ps =>
      match matches ps date_str with
      | (found, EmptyString) :: _ =>
          let d := Datetime (field "Y" 1900 found) (field "m" 1 found) (field "d" 1 found)
                            (field "H" 0 found) (field "M" 0 found) (field "S" 0 found)
                            (fraction found) in
          if valid d then Some d else None
      | _ => None
      end
  end.

(** A plain reading of markup: what stands between [<] and [>] is dropped,
    then blanks at both ends are removed. *)
Fixpoint drop_tags (inside : bool) (s : string) : string :=
  match s with
  | EmptyString => EmptyString
  | String c s' =>
      if Ascii.eqb c "<" then drop_tags true s'
      else if Ascii.eqb c ">" then drop_tags false s'
      else if inside then drop_tags inside s'
      else String c (drop_tags inside s')
  end.

Definition is_space (c : ascii) : bool :=
  ((9 <=? code c) && (code c <=? 13) || (28 <=? code c) && (code c <=? 32))%nat.

Fixpoint lstrip (s : string) : string :=
  match s with
  | String c s' => if is_space c then lstrip s' else s
  | EmptyString => EmptyString
  end.

Fixpoint rstrip (s : string) : string :=
  match s with
  | String c s' =>
      match rstrip s' with
      | EmptyString => if is_space c then EmptyString else String c EmptyString
      | t => String c t
      end
  | EmptyString => EmptyString
  end.

Definition clean_text (raw : string) : string := rstrip (lstrip (drop_tags false raw)).

End Reference.

(** ** Addresses, names and the date range *)

(** [f"{CATEGORY_JSON_URL}?page={page_num}"] *)
Definition paginated_url (page_num : nat) : string :=
  CATEGORY_JSON_URL +:+ "?page=" +:+ pretty page_num.

(** [f"{BASE_URL}/t/{topic['slug']}/{topic['id']}.json"] *)
Definition topic_url (topic : Topic) : string :=
  BASE_URL +:+ "/t/" +:+ t_slug topic +:+ "/" +:+ pretty (t_id topic) +:+ ".json".

(** [f"topic_{topic['id']}.json"] *)
Definition topic_filename (topic : Topic) : string :=
  "topic_" +:+ pretty (t_id topic) +:+ ".json".

(** [DATE_FROM <= created_at <= DATE_TO] *)
Definition in_range (created_at : datetime) : bool :=
  datetime_le DATE_FROM created_at && datetime_le created_at DATE_TO.

Definition combined_output_file : string := path_join OUTPUT_DIR "discourse_posts.json".
Definition summary_file : string := path_join OUTPUT_DIR "scrape_summary.json".

Definition empty_world : World := {| requests := []; writes := [] |}.

(** ** The saved session

    [auth.json] holds the storage state of a browser context. [main] makes
    sure there is one before it scrapes: it logs in when the file is
    missing or when the stored state no longer opens the category. *)

Definition AUTH_STATE_FILE : string := "auth.json".

(** What [context.storage_state(path=...)] saves. *)
Definition StorageState : Type := string.

(** [auth_state] is the content of [AUTH_STATE_FILE], [None] when the file
    does not exist. *)
Record Machine : Type := {
  auth_state : option StorageState;
  world : World }.

(** [f"{BASE_URL}/login"] *)
Definition LOGIN_URL : string := BASE_URL +:+ "/login".

(** The exceptions named by [except (TimeoutError, json.JSONDecodeError)]. *)
Definition handled (e : exn) : bool :=
  match e with
  | TimeoutError | JSONDecodeError => true
  | _ => false
  end.

Section Main.

(** The forum as a browser context sees it: [None] is a fresh context,
    [Some state] one created with [storage_state=AUTH_STATE_FILE]. *)
Variable forum : option StorageState -> string -> PageLoad.
(** [page.wait_for_selector("pre", timeout=5000)] on the category page. *)
Variable wait_for_pre : StorageState -> result unit.
(** The state of the context when the operator resumes from [page.pause()]. *)
Variable operator : StorageState.
(** [scrape_posts], run in a context created from the given stored state. *)
Variable scrape_posts_in : StorageState -> M unit.

Definition login_and_save_auth (m : Machine) : outcome unit * Machine :=
  let w := snd (visit LOGIN_URL (world m)) in
  match goto (forum None LOGIN_URL) with
  | Ok _ => (Returns tt, {| auth_state := Some operator; world := w |})
  | Raise e => (Raises e, {| auth_state := auth_state m; world := w |})
  end.

(** The three calls inside the [try] of [is_authenticated]. *)
Definition probe (state : StorageState) : result unit :=
  match goto (forum (Some state) CATEGORY_JSON_URL) with
  | Raise e => Raise e
  | Ok _ =>
      match wait_for_pre state with
      | Raise e => Raise e
      | Ok _ =>
          match inner_text_json (forum (Some state) CATEGORY_JSON_URL) with
          | Raise e => Raise e
          | Ok _ => Ok tt
          end
      end
  end.

Definition is_authenticated (state : StorageState) : M bool :=
  bind (visit CATEGORY_JSON_URL)
       (fun _ w =>
          match probe state with
          | Ok _ => (Returns true, w)
          | Raise e => if handled e then (Returns false, w) else (Raises e, w)
          end).

(** [scrape_posts(p)] at the end of [main], with [state] in the file. *)
Definition scrape_with (state : StorageState) (m : Machine) : outcome unit * Machine :=
  (fst (scrape_posts_in state (world m)),
   {| auth_state := auth_state m; world := snd (scrape_posts_in state (world m)) |}).

(** [login_and_save_auth(p)] followed by [scrape_posts(p)]: the file then
    holds the operator's state. *)
Definition login_then_scrape (m : Machine) : outcome unit * Machine :=
  match login_and_save_auth m with
  | (Returns _, m') => scrape_with operator m'
  | (Raises e, m') => (Raises e, m')
  | (Running, m') => (Running, m')
  end.

Definition main (m : Machine) : outcome unit * Machine :=
  match auth_state m with
  | None => login_then_scrape m
  | Some state =>
      match is_authenticated state (world m) with
      | (Returns true, w) => scrape_with state {| auth_state := Some state; world := w |}
      | (Returns false, w) => login_then_scrape {| auth_state := Some state; world := w |}
      | (Raises e, w) => (Raises e, {| auth_state := Some state; world := w |})
      | (Running, w) => (Running, {| auth_state := Some state; world := w |})
      end
  end.

End Main.

(** ** Sample forums *)

Module Sample.

Definition now : datetime := Datetime 2025 4 20 18 30 5 250000.

Definition topic (id : Z) (slug created : string) : Topic :=
  {| t_id := id; t_slug := slug; t_created_at := created;
     t_title := Some slug; t_category_id := Some 34%Z; t_tags := None;
     t_views := Some 10%Z; t_like_count := None |}.

Definition week1 : Topic := topic 7 "week-1" "2025-02-01T10:00:00.000Z".
Definition intro : Topic := topic 3 "intro" "2024-12-31T23:59:59Z".
Definition first_day : Topic := topic 9 "first-day" "2025-01-01T00:00:00Z".
Definition last_day : Topic := topic 11 "last-day" "2025-04-14T00:00:00.000Z".
Definition late : Topic := topic 12 "late" "2025-04-14T00:00:00.001Z".
Definition broken : Topic := topic 4 "broken" "31/12/2024".

Definition post (id number : Z) (reply_to : option Z) (cooked : string) : Post :=
  {| p_id := Some id; p_post_number := Some number; p_username := Some "ada";
     p_created_at := Some "2025-02-01T10:00:00.000Z"; p_updated_at := None;
     p_reply_to_post_number := reply_to; p_like_count := None;
     p_cooked := Some cooked; p_mentioned_users := None |}.

Definition week1_posts : list Post :=
  [ post 101 1 None "<p>How do I submit?</p>";
    post 102 2 (Some 1%Z) "<p>Use the portal.</p>";
    post 103 3 (Some 1%Z) "<p> </p>";
    post 104 4 (Some 2%Z) "<p>Thanks</p>" ].

Definition listing (ts : list Topic) : Json :=
  {| topic_list := Some {| topics := Some ts |}; post_stream := None;
     accepted_answer := None; accepted_answer_post_id := None |}.

Definition detail (ps : list Post) (accepted : option Z) : Json :=
  {| topic_list := None; post_stream := Some {| posts := Some ps |};
     accepted_answer := None; accepted_answer_post_id := accepted |}.

Definition served (body : Json) : PageLoad :=
  {| goto := Ok tt; inner_text_json := Ok body; content_json := Raise JSONDecodeError |}.

Definition timed_out : PageLoad :=
  {| goto := Raise TimeoutError; inner_text_json := Raise TimeoutError;
     content_json := Raise JSONDecodeError |}.

(** Two listing pages, then an empty one. [week1] loads, [first_day]
    times out, [last_day] has an empty post stream. *)
Definition forum (url : string) : PageLoad :=
  if String.eqb url (paginated_url 0) then served (listing [week1; intro])
  else if String.eqb url (paginated_url 1) then served (listing [first_day; last_day; late])
  else if String.eqb url (paginated_url 2) then served (listing [])
  else if String.eqb url (topic_url week1) then served (detail week1_posts (Some 102%Z))
  else if String.eqb url (topic_url last_day) then served (detail [] None)
  else timed_out.

Definition pages (page_num : nat) : Json :=
  match page_num with
  | 0 => listing [week1; intro]
  | 1 => listing [first_day; last_day; late]
  | _ => listing []
  end.

Definition all_topics : list Topic := [week1; intro; first_day; last_day; late].

(** The world once the listing of [forum] is over. *)
Definition listed : World :=
  {| requests := map paginated_url [0; 1; 2]; writes := [] |}.

(** The records expected for [week1]: post 103 has no text. *)
Definition record (id number : Z) (reply_to : option Z) (replies : nat)
    (accepted : bool) (text : string) : PostData :=
  {| topic_id := 7; topic_title := "week-1"; category_id := Some 34%Z; tags := [];
     post_id := id; post_number := number; author := "ada";
     created_at := "2025-02-01T10:00:00.000Z"; updated_at := "";
     reply_to_post_number := reply_to;
     is_reply := match reply_to with Some _ => true | None => false end;
     reply_count := replies; like_count := 0; is_accepted_answer := accepted;
     mentioned_users := [];
     url := "https://discourse.onlinedegree.iitm.ac.in/t/week-1/7/" +:+ pretty number;
     content := text |}.

Definition week1_records : list PostData :=
  [ record 101 1 None 2 false "How do I submit?";
    record 102 2 (Some 1%Z) 1 true "Use the portal.";
    record 104 4 (Some 2%Z) 0 false "Thanks" ].

(** A listing with one topic whose timestamp has neither format; the
    topic would be out of range whatever date it meant. *)
Definition forum_with_broken_topic (url : string) : PageLoad :=
  if String.eqb url (paginated_url 0) then served (listing [week1; broken])
  else if String.eqb url (paginated_url 1) then served (listing [])
  else if String.eqb url (topic_url week1) then served (detail week1_posts (Some 102%Z))
  else timed_out.

(** Sessions: ["fresh"] opens the category, ["stale"] gets the login page
    instead of JSON, ["blocked"] fails with an error that is no timeout. *)
Definition sessions (state : option StorageState) (url : string) : PageLoad :=
  match state with
  | None => {| goto := Ok tt; inner_text_json := Raise JSONDecodeError;
               content_json := Raise JSONDecodeError |}
  | Some state =>
      if String.eqb state "fresh" then forum url
      else if String.eqb state "blocked" then
        {| goto := Raise ValueError; inner_text_json := Raise ValueError;
           content_json := Raise ValueError |}
      else {| goto := Ok tt; inner_text_json := Raise JSONDecodeError;
               content_json := Raise JSONDecodeError |}
  end.

Definition category_page : PageLoad := served (listing [week1; intro]).

(** The category page itself answers like page 0 for a fresh session. *)
Definition sessions_with_category (state : option StorageState) (url : string) : PageLoad :=
  if String.eqb url CATEGORY_JSON_URL then
    match state with
    | Some state => if String.eqb state "fresh" then category_page else sessions (Some state) url
    | None => sessions None url
    end
  else sessions state url.

Definition pre_shown (state : StorageState) : result unit :=
  if String.eqb state "fresh" then Ok tt else Raise TimeoutError.

(** A topic listed twice, on two pages. *)
Definition forum_with_repeat (url : string) : PageLoad :=
  if String.eqb url (paginated_url 0) then served (listing [week1])
  else if String.eqb url (paginated_url 1) then served (listing [week1])
  else if String.eqb url (paginated_url 2) then served (listing [])
  else if String.eqb url (topic_url week1) then served (detail week1_posts (Some 102%Z))
  else timed_out.

(** A listing whose second page cannot be read. *)
Definition forum_with_broken_page (url : string) : PageLoad :=
  if String.eqb url (paginated_url 0) then served (listing [week1; intro])
  else timed_out.



(** A forum whose every listing page holds a topic. *)
Definition endless (url : string) : PageLoad := served (listing [week1]).

(** No network: nothing opens, with or without a session. *)
Definition offline (state : option StorageState) (url : string) : PageLoad := timed_out.

End Sample.

(** ** The script *)

Section Scraper.

(** [datetime.strptime(date_str, format)]; [None] is its [ValueError]. *)
Variable strptime : string -> string -> option datetime.
(** [BeautifulSoup(raw, "html.parser").get_text().strip()] *)
Variable clean_text : string -> string.
(** [datetime.now()] when the summary is built. *)
Variable now : datetime.
(** The forum, as the browser with the saved session sees it. *)
Variable site : string -> PageLoad.

Local Open Scope py_scope.

Definition parse_date (date_str : string) : result datetime :=
  match strptime date_str FORMAT_FRACTION with
  | Some d => Ok d
  | None =>
      match strptime date_str FORMAT_SECONDS with
      | Some d => Ok d
      | None => Raise ValueError
      end
  end.

(** *** Listing the topics *)

(** [try: data = json.loads(page.inner_text("pre"))]
    [except: data = json.loads(page.content())] *)
Definition parsed_page (url : string) : result Json :=
  match inner_text_json (site url) with
  | Ok data => Ok data
  | Raise _ => content_json (site url)
  end.

(** [data.get("topic_list", {}).get("topics", [])] *)
Definition topics_field (data : Json) : list Topic :=
  get (topics (get (topic_list data) {| topics := None |})) [].

(** One turn of the [while True] loop, up to [topics]. *)
Definition fetch_page (page_num : nat) : M (list Topic) :=
  visit (paginated_url page_num) ;;
  lift (goto (site (paginated_url page_num))) ;;
  data <- lift (parsed_page (paginated_url page_num)) ;;
  ret (topics_field data).

Fixpoint list_topics (fuel page_num : nat) (all_topics : list Topic) : M (list Topic) :=
  match fuel with
  | O => fun w => (Running, w)
  | S fuel' =>
      topics <- fetch_page page_num ;;
      match topics with
      | [] => ret all_topics
      | _ :: _ => list_topics fuel' (S page_num) (all_topics ++ topics)%list
      end
  end.

(** *** One topic *)

(** The two nested [try] blocks around the topic's page; [None] is the
    [continue] of the inner handler. *)
Definition parsed_topic (topic_url : string) : option Json :=
  match goto (site topic_url), inner_text_json (site topic_url) with
  | Ok _, Ok topic_data => Some topic_data
  | _, _ =>
      match content_json (site topic_url) with
      | Ok topic_data => Some topic_data
      | Raise _ => None
      end
  end.

Definition load_topic (topic_url : string) : M (option Json) :=
  visit topic_url ;;
  ret (parsed_topic topic_url).

(** [topic_data.get("post_stream", {}).get("posts", [])] *)
Definition posts_field (topic_data : Json) : list Post :=
  get (posts (get (post_stream topic_data) {| posts := None |})) [].

Definition get_accepted_answer_id (topic_data : Json) : option Z :=
  get (accepted_answer topic_data) (accepted_answer_post_id topic_data).

(** One turn of the loop that builds the reply count map. *)
Definition count_reply (reply_counter : gmap Z nat) (post : Post) : gmap Z nat :=
  match p_reply_to_post_number post with
  | Some reply_to => <[reply_to := get (reply_counter !! reply_to) 0 + 1]> reply_counter
  | None => reply_counter
  end.

(** [post["id"] == accepted_answer_id if accepted_answer_id else False] *)
Definition accepted_flag (id : Z) (accepted_answer_id : option Z) : bool :=
  match accepted_answer_id with
  | Some a => if (a =? 0)%Z then false else (id =? a)%Z
  | None => false
  end.

(** The dictionary display [post_data = {...}]. *)
Definition make_post_data (topic : Topic) (post : Post) (reply_counter : gmap Z nat)
    (accepted_answer_id : option Z) (clean_content : string) : result PostData :=
  match subscript "id" (p_id post) with
  | Raise e => Raise e
  | Ok id =>
      match subscript "post_number" (p_post_number post) with
      | Raise e => Raise e
      | Ok number =>
          Ok {| topic_id := t_id topic;
                topic_title := get (t_title topic) "";
                category_id := t_category_id topic;
                tags := get (t_tags topic) [];
                post_id := id;
                post_number := number;
                author := get (p_username post) "unknown";
                created_at := get (p_created_at post) "";
                updated_at := get (p_updated_at post) "";
                reply_to_post_number := p_reply_to_post_number post;
                is_reply := bool_decide (p_reply_to_post_number post <> None);
                reply_count := get (reply_counter !! number) 0;
                like_count := get (p_like_count post) 0%Z;
                is_accepted_answer := accepted_flag id accepted_answer_id;
                mentioned_users :=
                  map (fun u => get (m_username u) "") (get (p_mentioned_users post) []);
                url := BASE_URL +:+ "/t/" +:+ t_slug topic +:+ "/" +:+ pretty (t_id topic)
                       +:+ "/" +:+ pretty number;
                content := clean_content |}
      end
  end.

(** One turn of the loop over the posts of a topic; the accumulator is
    [(topic_posts, all_posts)]. *)
Definition post_step (topic : Topic) (reply_counter : gmap Z nat)
    (accepted_answer_id : option Z)
    (acc : list PostData * list PostData) (post : Post) : list PostData * list PostData :=
  let raw_content := get (p_cooked post) "" in
  let clean_content := clean_text raw_content in
  if String.eqb clean_content "" then acc
  else
    match make_post_data topic post reply_counter accepted_answer_id clean_content with
    | Ok post_data => ((fst acc ++ [post_data])%list, (snd acc ++ [post_data])%list)
    | Raise _ => acc
    end.

Definition make_topic_metadata (topic : Topic) (topic_posts : list PostData) : TopicMetadata :=
  {| tm_topic_id := t_id topic;
     tm_title := get (t_title topic) "";
     tm_slug := t_slug topic;
     tm_category_id := t_category_id topic;
     tm_tags := get (t_tags topic) [];
     tm_created_at := t_created_at topic;
     posts_count := length topic_posts;
     tm_views := get (t_views topic) 0%Z;
     tm_like_count := get (t_like_count topic) 0%Z;
     tm_url := BASE_URL +:+ "/t/" +:+ t_slug topic +:+ "/" +:+ pretty (t_id topic) |}.

(** One turn of [for topic in all_topics]; the accumulator is
    [(all_posts, processed_topics)]. *)
Definition topic_step (acc : list PostData * nat) (topic : Topic) : M (list PostData * nat) :=
  created_at <- lift (parse_date (t_created_at topic)) ;;
  if in_range created_at then
    let processed_topics := S (snd acc) in
    topic_data <- load_topic (topic_url topic) ;;
    match topic_data with
    | None => ret (fst acc, processed_topics)
    | Some topic_data =>
        let posts := posts_field topic_data in
        match posts with
        | [] => ret (fst acc, processed_topics)
        | _ :: _ =>
            let accepted_answer_id := get_accepted_answer_id topic_data in
            let reply_counter := fold_left count_reply posts ∅ in
            let collected :=
              fold_left (post_step topic reply_counter accepted_answer_id) posts ([], fst acc) in
            match fst collected with
            | [] => ret (snd collected, processed_topics)
            | _ :: _ =>
                dump (path_join OUTPUT_DIR (topic_filename topic))
                     (TopicFile (make_topic_metadata topic (fst collected)) (fst collected)) ;;
                ret (snd collected, processed_topics)
            end
        end
    end
  else ret acc.

(** *** The run *)

(** The list display under ["individual_topics"]. *)
Fixpoint individual_topic_files (all_topics : list Topic) : result (list string) :=
  match all_topics with
  | [] => Ok []
  | topic :: rest =>
      match parse_date (t_created_at topic) with
      | Raise e => Raise e
      | Ok created_at =>
          match individual_topic_files rest with
          | Raise e => Raise e
          | Ok names =>
              Ok (if in_range created_at then topic_filename topic :: names else names)
          end
      end
  end.

Definition make_summary (all_posts : list PostData) (processed_topics : nat)
    (names : list string) : Summary :=
  {| scraped_at := isoformat now;
     date_range_from := isoformat DATE_FROM;
     date_range_to := isoformat DATE_TO;
     total_topics := processed_topics;
     total_posts := length all_posts;
     s_category_id := CATEGORY_ID;
     base_url := BASE_URL;
     combined_posts := "discourse_posts.json";
     individual_topics := names |}.

Definition scrape_posts (fuel : nat) : M unit :=
  all_topics <- list_topics fuel 0 [] ;;
  acc <- for_each topic_step ([], 0) all_topics ;;
  dump combined_output_file (CombinedFile (fst acc)) ;;
  names <- lift (individual_topic_files all_topics) ;;
  dump summary_file (SummaryFile (make_summary (fst acc) (snd acc) names)) ;;
  ret tt.

(** *** The pure content of a run

    The same computations with the state left out; the lemmas below
    relate them to the loops above. *)

(** The body of a listing page as one turn of the loop decodes it. *)
Definition page_body (page_num : nat) : result Json :=
  match goto (site (paginated_url page_num)) with
  | Raise e => Raise e
  | Ok _ => parsed_page (paginated_url page_num)
  end.

(** The record one turn of the post loop appends, if any. *)
Definition emitted (topic : Topic) (reply_counter : gmap Z nat)
    (accepted_answer_id : option Z) (post : Post) : option PostData :=
  if String.eqb (clean_text (get (p_cooked post) "")) "" then None
  else
    match make_post_data topic post reply_counter accepted_answer_id
                         (clean_text (get (p_cooked post) "")) with
    | Ok post_data => Some post_data
    | Raise _ => None
    end.

(** [topic_posts] at the end of a turn of the topic loop. *)
Definition topic_records (topic : Topic) : list PostData :=
  match parsed_topic (topic_url topic) with
  | None => []
  | Some topic_data =>
      omap (emitted topic (fold_left count_reply (posts_field topic_data) ∅)
                    (get_accepted_answer_id topic_data))
           (posts_field topic_data)
  end.

Definition topic_writes (topic : Topic) : list (string * File) :=
  match topic_records topic with
  | [] => []
  | _ :: _ =>
      [(path_join OUTPUT_DIR (topic_filename topic),
        TopicFile (make_topic_metadata topic (topic_records topic)) (topic_records topic))]
  end.

(** The test of the topic loop and of the summary's list display. *)
Definition selects (topic : Topic) : bool :=
  match parse_date (t_created_at topic) with
  | Ok created_at => in_range created_at
  | Raise _ => false
  end.

Definition well_dated (topic : Topic) : Prop :=
  exists created_at, parse_date (t_created_at topic) = Ok created_at.

(** The summary a run writes last, if it got that far. *)
Definition summary_of (w : World) : option Summary :=
  match last (writes w) with
  | Some (_, SummaryFile summary) => Some summary
  | _ => None
  end.

(** The number of in-range topics whose page could be read: the count
    the summary would hold if a topic that failed to load were left out. *)
Definition loaded_count (all_topics : list Topic) : nat :=
  length (List.filter (fun topic => bool_decide (parsed_topic (topic_url topic) <> None))
                      (List.filter selects all_topics)).

(** The reading of the summary's [total_topics] under which a topic that
    failed to load is not counted. *)
Definition counts_loaded_topics_only : Prop :=
  forall (fuel : nat) (w w1 w' : World) (all_topics : list Topic) (summary : Summary),
    list_topics fuel 0 [] w = (Returns all_topics, w1) ->
    scrape_posts fuel w = (Returns tt, w') ->
    summary_of w' = Some summary ->
    total_topics summary = loaded_count all_topics.


(** The records of a per-topic file; none for the other files. *)
Definition posts_in (entry : string * File) : list PostData :=
  match snd entry with
  | TopicFile _ topic_posts => topic_posts
  | _ => []
  end.

(** The file a list of writes leaves at [path]: the last one written
    there. *)
Fixpoint final_content (ws : list (string * File)) (path : string) : option File :=
  match ws with
  | [] => None
  | (p, f) :: rest =>
      match final_content rest path with
      | Some later => Some later
      | None => if String.eqb p path then Some f else None
      end
  end.

(** The fields of a datetime are those of a calendar date and a time of
    day (the bounds that the range test relies on). *)
Definition plausible (d : datetime) : Prop :=
  (1 <= month d /\ 1 <= day d /\ 0 <= hour d /\ 0 <= minute d
   /\ 0 <= second d /\ 0 <= microsecond d)%Z.


Definition is_topic_file (entry : string * File) : bool :=
  match snd entry with
  | TopicFile _ _ => true
  | _ => false
  end.

(** The per-topic files written between two worlds of a run: the paths
    of the per-topic writes that were added, each path once. *)
Definition topic_paths_written (w w' : World) : list string :=
  remove_dups (map fst (List.filter is_topic_file (drop (length (writes w)) (writes w')))).

(** The number of records of the per-topic file that a list of writes
    leaves at [path]. *)
Definition records_at (ws : list (string * File)) (path : string) : nat :=
  match final_content ws path with
  | Some (TopicFile _ topic_posts) => length topic_posts
  | _ => 0
  end.

(** C9 as the spec words it, for every run that returns: the combined file
    has as many records as the per-topic files written in the run have
    together. *)
Definition combined_is_sum_over_files : Prop :=
  forall (fuel : nat) (w w' : World) (combined : list PostData),
    scrape_posts fuel w = (Returns tt, w') ->
    final_content (writes w') combined_output_file = Some (CombinedFile combined) ->
    length combined = list_sum (map (records_at (writes w')) (topic_paths_written w w')).

(** ** Properties *)

Local Open Scope list_scope.

(** *** The order on datetimes *)

Lemma lex_compare_refl (a : list Z) : lex_compare a a = Eq.
Proof.
  induction a as [|x a IH]; simpl; [reflexivity|].
  now rewrite Z.compare_refl.
Qed.

Lemma datetime_le_refl (d : datetime) : datetime_le d d = true.
Proof. unfold datetime_le, datetime_compare. now rewrite lex_compare_refl. Qed.

Lemma lex_compare_trans_le (a b c : list Z) :
  lex_compare a b <> Gt -> lex_compare b c <> Gt -> lex_compare a c <> Gt.
Proof.
  revert b c; induction a as [|x a IH]; intros [|y b] [|z c]; simpl; try congruence.
  destruct (Z.compare_spec x y), (Z.compare_spec y z); try congruence; subst.
  - rewrite Z.compare_refl. apply IH.
  - intros _ _. now rewrite (proj2 (Z.compare_lt_iff _ _) H0).
  - intros _ _. now rewrite (proj2 (Z.compare_lt_iff _ _) H).
  - intros _ _. rewrite (proj2 (Z.compare_lt_iff x z)); [congruence | lia].
Qed.

Lemma datetime_le_trans (a b c : datetime) :
  datetime_le a b = true -> datetime_le b c = true -> datetime_le a c = true.
Proof.
  unfold datetime_le, datetime_compare. intros Hab Hbc.
  pose proof (lex_compare_trans_le (fields a) (fields b) (fields c)) as H.
  destruct (lex_compare (fields a) (fields b)); try discriminate;
    destruct (lex_compare (fields b) (fields c)); try discriminate;
    destruct (lex_compare (fields a) (fields c)); try reflexivity;
    exfalso; apply H; congruence.
Qed.

Lemma in_range_bounds (d : datetime) :
  in_range d = true <-> datetime_le DATE_FROM d = true /\ datetime_le d DATE_TO = true.
Proof. unfold in_range. apply andb_true_iff. Qed.

Lemma in_range_DATE_FROM : in_range DATE_FROM = true.
Proof. reflexivity. Qed.

Lemma in_range_DATE_TO : in_range DATE_TO = true.
Proof. reflexivity. Qed.

(** *** The listing loop *)

Lemma fetch_page_eq (page_num : nat) (w : World) :
  fetch_page page_num w =
    (match page_body page_num with
     | Ok data => Returns (topics_field data)
     | Raise e => Raises e
     end,
     {| requests := requests w ++ [paginated_url page_num]; writes := writes w |}).
Proof.
  unfold fetch_page, page_body, bind, visit, lift, ret. simpl.
  destruct (goto (site (paginated_url page_num))); [|reflexivity].
  now destruct (parsed_page (paginated_url page_num)).
Qed.

Lemma list_topics_from (bodies : nat -> Json) (n : nat) :
  forall (fuel page_num : nat) (all_topics : list Topic) (w : World),
    (forall k, page_num <= k < page_num + n ->
               page_body k = Ok (bodies k) /\ topics_field (bodies k) <> []) ->
    page_body (page_num + n) = Ok (bodies (page_num + n)) ->
    topics_field (bodies (page_num + n)) = [] ->
    n < fuel ->
    list_topics fuel page_num all_topics w =
      (Returns (all_topics ++ concat (map (fun k => topics_field (bodies k)) (seq page_num n))),
       {| requests := requests w ++ map paginated_url (seq page_num (S n));
          writes := writes w |}).
Proof.
  induction n as [|n IH]; intros fuel page_num all_topics w Hfull Hlast Hempty Hfuel.
  - destruct fuel as [|fuel]; [lia|]. rewrite Nat.add_0_r in *.
    simpl. unfold bind. rewrite fetch_page_eq, Hlast, Hempty. unfold ret.
    now rewrite app_nil_r.
  - destruct fuel as [|fuel]; [lia|].
    destruct (Hfull page_num ltac:(lia)) as [Hbody Hne].
    cbn [list_topics]. unfold bind at 1. rewrite fetch_page_eq, Hbody.
    destruct (topics_field (bodies page_num)) as [|t ts] eqn:Hts; [congruence|].
    rewrite (IH fuel (S page_num)); cbn [requests writes].
    + f_equal; [|f_equal].
      * f_equal. cbn [seq map concat]. now rewrite Hts, app_assoc.
      * rewrite <- app_assoc. reflexivity.
    + intros k Hk. apply Hfull. lia.
    + now replace (S page_num + n) with (page_num + S n) by lia.
    + now replace (S page_num + n) with (page_num + S n) by lia.
    + lia.
Qed.

Lemma list_topics_writes (fuel : nat) :
  forall (page_num : nat) (all_topics : list Topic) (w : World),
    writes (snd (list_topics fuel page_num all_topics w)) = writes w.
Proof.
  induction fuel as [|fuel IH]; intros page_num all_topics w; [reflexivity|].
  cbn [list_topics]. unfold bind at 1. rewrite fetch_page_eq.
  destruct (page_body page_num) as [data|e]; [|reflexivity].
  destruct (topics_field data); [reflexivity|].
  now rewrite IH.
Qed.

(** C7: the listing asks for pages 0, 1, 2, ... in this order; when page
    [n] is the first one whose topic list is empty, it returns the topic
    lists of pages 0 to [n - 1] joined in page order, and page [n] is the
    last address it asks for: the empty page ends the loop and raises
    nothing. *)
Theorem list_topics_stops_at_first_empty_page
    (bodies : nat -> Json) (n fuel : nat) (w : World) :
  (forall k, k <= n -> page_body k = Ok (bodies k)) ->
  (forall k, k < n -> topics_field (bodies k) <> []) ->
  topics_field (bodies n) = [] ->
  n < fuel ->
  list_topics fuel 0 [] w =
    (Returns (concat (map (fun k => topics_field (bodies k)) (seq 0 n))),
     {| requests := requests w ++ map paginated_url (seq 0 (S n));
        writes := writes w |}).
Proof.
  intros Hbody Hne Hempty Hfuel.
  apply (list_topics_from bodies n fuel 0 [] w); trivial.
  - intros k Hk. split; [apply Hbody | apply Hne]; lia.
  - apply Hbody. lia.
Qed.

(** *** The post loop *)

Lemma post_step_eq (topic : Topic) (reply_counter : gmap Z nat) (accepted : option Z)
    (acc : list PostData * list PostData) (post : Post) :
  post_step topic reply_counter accepted acc post =
    match emitted topic reply_counter accepted post with
    | Some post_data => (fst acc ++ [post_data], snd acc ++ [post_data])
    | None => acc
    end.
Proof.
  unfold post_step, emitted.
  destruct (String.eqb (clean_text (get (p_cooked post) "")) ""); [reflexivity|].
  now destruct (make_post_data topic post reply_counter accepted _).
Qed.

Lemma fold_post_step (topic : Topic) (reply_counter : gmap Z nat) (accepted : option Z)
    (posts : list Post) :
  forall acc : list PostData * list PostData,
    fold_left (post_step topic reply_counter accepted) posts acc =
      (fst acc ++ omap (emitted topic reply_counter accepted) posts,
       snd acc ++ omap (emitted topic reply_counter accepted) posts).
Proof.
  induction posts as [|post posts IH]; intros [topic_posts all_posts]; simpl.
  - now rewrite !app_nil_r.
  - rewrite IH, post_step_eq.
    destruct (emitted topic reply_counter accepted post); simpl; [|reflexivity].
    now rewrite <- !app_assoc.
Qed.

(** *** The topic loop *)

Lemma parse_date_raises (date_str : string) (e : exn) :
  parse_date date_str = Raise e -> e = ValueError.
Proof.
  unfold parse_date.
  destruct (strptime date_str FORMAT_FRACTION); [discriminate|].
  destruct (strptime date_str FORMAT_SECONDS); [discriminate|].
  congruence.
Qed.

Lemma well_dated_dec (topic : Topic) :
  well_dated topic \/ parse_date (t_created_at topic) = Raise ValueError.
Proof.
  unfold well_dated.
  destruct (parse_date (t_created_at topic)) as [d|e] eqn:H; [left; eauto|].
  right. now rewrite (parse_date_raises _ _ H).
Qed.

Lemma topic_step_eq (acc : list PostData * nat) (topic : Topic) (w : World) :
  topic_step acc topic w =
    match parse_date (t_created_at topic) with
    | Raise e => (Raises e, w)
    | Ok created_at =>
        if in_range created_at then
          (Returns (fst acc ++ topic_records topic, S (snd acc)),
           {| requests := requests w ++ [topic_url topic];
              writes := writes w ++ topic_writes topic |})
        else (Returns acc, w)
    end.
Proof.
  unfold topic_step, bind, lift.
  destruct (parse_date (t_created_at topic)) as [created_at|e]; [|reflexivity].
  destruct (in_range created_at); [|reflexivity].
  unfold load_topic, bind, visit, ret, topic_writes, topic_records.
  destruct (parsed_topic (topic_url topic)) as [topic_data|].
  - destruct (posts_field topic_data) as [|post posts] eqn:Hposts.
    + simpl. now rewrite !app_nil_r.
    + rewrite fold_post_step. cbn [fst snd].
      destruct (omap _ (post :: posts)) as [|r rs]; cbn [app].
      * now rewrite !app_nil_r.
      * reflexivity.
  - simpl. now rewrite !app_nil_r.
Qed.

Lemma for_each_topics_ok (topics : list Topic) :
  forall (acc : list PostData * nat) (w : World),
    Forall well_dated topics ->
    for_each topic_step acc topics w =
      (Returns (fst acc ++ concat (map topic_records (List.filter selects topics)),
                snd acc + length (List.filter selects topics)),
       {| requests := requests w ++ map topic_url (List.filter selects topics);
          writes := writes w ++ concat (map topic_writes (List.filter selects topics)) |}).
Proof.
  induction topics as [|topic topics IH]; intros [all_posts processed] w Hdated.
  - simpl. unfold ret. rewrite !app_nil_r, Nat.add_0_r. now destruct w.
  - inversion Hdated as [|? ? [created_at Hd] Hrest]; subst.
    assert (Hsel : selects topic = in_range created_at)
      by (unfold selects; now rewrite Hd).
    cbn [for_each]. unfold bind. rewrite topic_step_eq, Hd.
    cbn [List.filter]. rewrite Hsel.
    destruct (in_range created_at).
    + rewrite IH by assumption. cbn [fst snd requests writes map concat length].
      rewrite <- !app_assoc, Nat.add_succ_r. reflexivity.
    + now rewrite IH.
Qed.

Lemma for_each_topics_raises (pre : list Topic) (topic : Topic) (rest : list Topic) (e : exn) :
  forall (acc : list PostData * nat) (w : World),
    Forall well_dated pre ->
    parse_date (t_created_at topic) = Raise e ->
    for_each topic_step acc (pre ++ topic :: rest) w =
      (Raises e,
       {| requests := requests w ++ map topic_url (List.filter selects pre);
          writes := writes w ++ concat (map topic_writes (List.filter selects pre)) |}).
Proof.
  induction pre as [|t pre IH]; intros [all_posts processed] w Hdated Hbad.
  - simpl. unfold bind. rewrite topic_step_eq, Hbad, !app_nil_r. now destruct w.
  - inversion Hdated as [|? ? [created_at Hd] Hrest]; subst.
    assert (Hsel : selects t = in_range created_at)
      by (unfold selects; now rewrite Hd).
    cbn [for_each app]. unfold bind. rewrite topic_step_eq, Hd.
    cbn [List.filter]. rewrite Hsel.
    destruct (in_range created_at).
    + rewrite IH by assumption. cbn [requests writes map concat].
      now rewrite <- !app_assoc.
    + now rewrite IH.
Qed.

(** A list with a topic that cannot be dated splits at the first one. *)
Lemma first_undated (topics : list Topic) :
  ~ Forall well_dated topics ->
  exists pre topic rest,
    topics = pre ++ topic :: rest /\ Forall well_dated pre /\
    parse_date (t_created_at topic) = Raise ValueError.
Proof.
  induction topics as [|t topics IH]; intros Hnot.
  - exfalso. apply Hnot. constructor.
  - destruct (well_dated_dec t) as [Hok|Hbad].
    + destruct IH as (pre & topic & rest & -> & Hpre & Hbad).
      * intros Hall. apply Hnot. now constructor.
      * exists (t :: pre), topic, rest. repeat split; [now constructor | assumption].
    + exists [], t, topics. repeat split; [constructor | assumption].
Qed.

Lemma Forall_well_dated_dec (topics : list Topic) :
  Forall well_dated topics \/ ~ Forall well_dated topics.
Proof.
  induction topics as [|t topics [IH|IH]].
  - left. constructor.
  - destruct (well_dated_dec t) as [Hok|Hbad].
    + left. now constructor.
    + right. intros Hall. inversion Hall as [|? ? [d Hd] _]; subst. congruence.
  - right. intros Hall. inversion Hall; subst. contradiction.
Qed.

(** *** The summary's list of files *)

Lemma individual_topic_files_ok (topics : list Topic) :
  Forall well_dated topics ->
  individual_topic_files topics = Ok (map topic_filename (List.filter selects topics)).
Proof.
  induction 1 as [|topic topics [created_at Hd] _ IH]; [reflexivity|].
  assert (Hsel : selects topic = in_range created_at)
    by (unfold selects; now rewrite Hd).
  cbn [individual_topic_files List.filter]. rewrite Hd, IH, Hsel.
  now destruct (in_range created_at).
Qed.

Lemma individual_topic_files_raises (pre : list Topic) (topic : Topic) (rest : list Topic) :
  parse_date (t_created_at topic) = Raise ValueError ->
  individual_topic_files (pre ++ topic :: rest) = Raise ValueError.
Proof.
  intros Hbad. induction pre as [|t pre IH]; simpl.
  - now rewrite Hbad.
  - destruct (parse_date (t_created_at t)) as [d|e] eqn:Hd.
    + now rewrite IH.
    + now rewrite (parse_date_raises _ _ Hd).
Qed.

(** *** The whole run *)

Lemma scrape_posts_returns (fuel : nat) (w w1 : World) (all_topics : list Topic) :
  list_topics fuel 0 [] w = (Returns all_topics, w1) ->
  Forall well_dated all_topics ->
  scrape_posts fuel w =
    (Returns tt,
     {| requests := requests w1 ++ map topic_url (List.filter selects all_topics);
        writes :=
          writes w1 ++ concat (map topic_writes (List.filter selects all_topics)) ++
          [(combined_output_file,
            CombinedFile (concat (map topic_records (List.filter selects all_topics))));
           (summary_file,
            SummaryFile
              (make_summary (concat (map topic_records (List.filter selects all_topics)))
                            (length (List.filter selects all_topics))
                            (map topic_filename (List.filter selects all_topics))))] |}).
Proof.
  intros Hlist Hdated. unfold scrape_posts, bind at 1. rewrite Hlist.
  unfold bind at 1. rewrite for_each_topics_ok by assumption.
  unfold bind, dump, lift, ret. cbn [fst snd requests writes app].
  rewrite individual_topic_files_ok by assumption.
  cbn [requests writes]. now rewrite <- !app_assoc.
Qed.

Lemma scrape_posts_raises (fuel : nat) (w w1 : World) (all_topics : list Topic) :
  list_topics fuel 0 [] w = (Returns all_topics, w1) ->
  ~ Forall well_dated all_topics ->
  exists pre topic rest,
    all_topics = pre ++ topic :: rest /\ Forall well_dated pre /\
    parse_date (t_created_at topic) = Raise ValueError /\
    scrape_posts fuel w =
      (Raises ValueError,
       {| requests := requests w1 ++ map topic_url (List.filter selects pre);
          writes := writes w1 ++ concat (map topic_writes (List.filter selects pre)) |}).
Proof.
  intros Hlist Hnot.
  destruct (first_undated _ Hnot) as (pre & topic & rest & -> & Hpre & Hbad).
  exists pre, topic, rest. repeat split; try assumption.
  unfold scrape_posts, bind at 1. rewrite Hlist.
  unfold bind at 1. now rewrite (for_each_topics_raises pre topic rest ValueError).
Qed.

Lemma scrape_posts_inv (fuel : nat) (w w' : World) :
  scrape_posts fuel w = (Returns tt, w') ->
  exists all_topics w1,
    list_topics fuel 0 [] w = (Returns all_topics, w1) /\ Forall well_dated all_topics.
Proof.
  intros Hrun.
  destruct (list_topics fuel 0 [] w) as [[all_topics|e|] w1] eqn:Hlist.
  - exists all_topics, w1. split; [reflexivity|].
    destruct (Forall_well_dated_dec all_topics) as [Hall|Hnot]; [assumption|].
    destruct (scrape_posts_raises fuel w w1 all_topics Hlist Hnot)
      as (? & ? & ? & _ & _ & _ & Hraise).
    congruence.
  - unfold scrape_posts, bind at 1 in Hrun. rewrite Hlist in Hrun. discriminate.
  - unfold scrape_posts, bind at 1 in Hrun. rewrite Hlist in Hrun. discriminate.
Qed.

(** *** Claims about one topic *)

Lemma summary_of_run (ws : list (string * File)) (path : string) (summary : Summary)
    (reqs : list string) :
  summary_of {| requests := reqs; writes := ws ++ [(path, SummaryFile summary)] |}
    = Some summary.
Proof. unfold summary_of. cbn [writes]. now rewrite last_snoc. Qed.

Lemma scrape_posts_summary (fuel : nat) (w w1 w' : World) (all_topics : list Topic) :
  list_topics fuel 0 [] w = (Returns all_topics, w1) ->
  scrape_posts fuel w = (Returns tt, w') ->
  summary_of w' =
    Some (make_summary (concat (map topic_records (List.filter selects all_topics)))
                       (length (List.filter selects all_topics))
                       (map topic_filename (List.filter selects all_topics))).
Proof.
  intros Hlist Hrun.
  destruct (scrape_posts_inv _ _ _ Hrun) as (all_topics' & w1' & Hlist' & Hdated).
  rewrite Hlist in Hlist'. injection Hlist' as <- <-.
  rewrite (scrape_posts_returns _ _ _ _ Hlist Hdated) in Hrun.
  injection Hrun as <-.
  rewrite app_assoc.
  change [?a; ?b] with ([a] ++ [b]). rewrite app_assoc.
  apply summary_of_run.
Qed.

(** C1, as the script behaves: a topic in the date range whose page can
    be neither loaded nor parsed ends its turn of the loop normally; the
    turn writes no file and adds no record to the combined list, yet it
    has already advanced the counter. So a run over a listing of dated
    topics returns, and the [total_topics] of its summary is the number of
    all in-range topics, the unreadable ones included. *)
Theorem unreadable_topic_is_skipped_and_counted
    (topic : Topic) (created_at : datetime) (acc : list PostData * nat) (w : World) :
  parse_date (t_created_at topic) = Ok created_at ->
  in_range created_at = true ->
  parsed_topic (topic_url topic) = None ->
  topic_step acc topic w =
    (Returns (fst acc, S (snd acc)),
     {| requests := requests w ++ [topic_url topic]; writes := writes w |})
  /\ forall (fuel : nat) (w0 w1 : World) (all_topics : list Topic),
       list_topics fuel 0 [] w0 = (Returns all_topics, w1) ->
       Forall well_dated all_topics ->
       In topic all_topics ->
       exists w' summary,
         scrape_posts fuel w0 = (Returns tt, w')
         /\ summary_of w' = Some summary
         /\ total_topics summary = length (List.filter selects all_topics)
         /\ loaded_count all_topics < total_topics summary.
Proof.
  intros Hd Hin Hnone. split.
  - rewrite topic_step_eq, Hd, Hin. unfold topic_writes, topic_records.
    now rewrite Hnone, !app_nil_r.
  - intros fuel w0 w1 all_topics Hlist Hdated Hmem.
    pose proof (scrape_posts_returns _ _ _ _ Hlist Hdated) as Hrun.
    eexists _, _. split; [exact Hrun|].
    split; [apply (scrape_posts_summary _ _ _ _ _ Hlist Hrun)|].
    cbn [total_topics make_summary]. split; [reflexivity|].
    unfold loaded_count.
    assert (Hsel : In topic (List.filter selects all_topics)).
    { apply filter_In. split; [assumption|]. unfold selects. now rewrite Hd. }
    revert Hsel. generalize (List.filter selects all_topics) as sel.
    induction sel as [|t sel IH]; intros Hsel; [contradiction|].
    cbn [List.filter length]. destruct Hsel as [->|Hsel].
    + rewrite Hnone. rewrite bool_decide_eq_false_2 by (intros H; now apply H).
      pose proof (filter_length_le
                    (fun topic => bool_decide (parsed_topic (topic_url topic) <> None)) sel).
      lia.
    + specialize (IH Hsel).
      destruct (bool_decide _); cbn [length]; lia.
Qed.

(** C3: a listed topic whose creation time parses to [created_at] is
    processed exactly when [DATE_FROM <= created_at <= DATE_TO]: in that
    case its turn of the loop asks for the topic's page and counts it,
    otherwise the turn does nothing. Both ends are in the range. A run
    over a listing of dated topics returns, and the pages it asks for
    after the listing are those of the in-range topics, in listed order. *)
Theorem topic_processed_iff_in_range
    (topic : Topic) (created_at : datetime) (acc : list PostData * nat) (w : World) :
  parse_date (t_created_at topic) = Ok created_at ->
  (in_range created_at = true <->
     datetime_le DATE_FROM created_at = true /\ datetime_le created_at DATE_TO = true)
  /\ (in_range created_at = true ->
        exists all_posts w',
          topic_step acc topic w = (Returns (all_posts, S (snd acc)), w')
          /\ requests w' = requests w ++ [topic_url topic])
  /\ (in_range created_at = false -> topic_step acc topic w = (Returns acc, w))
  /\ (created_at = DATE_FROM \/ created_at = DATE_TO -> in_range created_at = true)
  /\ forall (fuel : nat) (w0 w1 : World) (all_topics : list Topic),
       list_topics fuel 0 [] w0 = (Returns all_topics, w1) ->
       Forall well_dated all_topics ->
       exists w',
         scrape_posts fuel w0 = (Returns tt, w')
         /\ requests w' = requests w1 ++ map topic_url (List.filter selects all_topics)
         /\ (In topic (List.filter selects all_topics) <->
               In topic all_topics /\ in_range created_at = true).
Proof.
  intros Hd. split; [apply in_range_bounds|]. split; [|split; [|split]].
  - intros Hin. rewrite topic_step_eq, Hd, Hin. eauto.
  - intros Hout. now rewrite topic_step_eq, Hd, Hout.
  - intros [-> | ->]; reflexivity.
  - intros fuel w0 w1 all_topics Hlist Hdated.
    eexists. split; [apply (scrape_posts_returns _ _ _ _ Hlist Hdated)|].
    split; [reflexivity|].
    rewrite filter_In. unfold selects. now rewrite Hd.
Qed.

(** *** Claims about the records of a topic *)

Lemma emitted_Some (topic : Topic) (reply_counter : gmap Z nat) (accepted : option Z)
    (post : Post) (post_data : PostData) :
  emitted topic reply_counter accepted post = Some post_data ->
  p_id post = Some (post_id post_data)
  /\ p_post_number post = Some (post_number post_data)
  /\ content post_data = clean_text (get (p_cooked post) "")
  /\ content post_data <> ""
  /\ reply_count post_data = get (reply_counter !! post_number post_data) 0
  /\ is_accepted_answer post_data = accepted_flag (post_id post_data) accepted.
Proof.
  unfold emitted, make_post_data, subscript.
  destruct (String.eqb _ "") eqn:Hempty; [discriminate|].
  destruct (p_id post) as [id|]; [|discriminate].
  destruct (p_post_number post) as [number|]; [|discriminate].
  intros [= <-]. cbn. repeat split; try reflexivity.
  now apply String.eqb_neq.
Qed.

Lemma emitted_empty (topic : Topic) (reply_counter : gmap Z nat) (accepted : option Z)
    (post : Post) :
  clean_text (get (p_cooked post) "") = "" ->
  emitted topic reply_counter accepted post = None.
Proof. unfold emitted. intros ->. reflexivity. Qed.

Lemma In_omap {A B : Type} (f : A -> option B) (l : list A) (y : B) :
  In y (omap f l) <-> exists x, In x l /\ f x = Some y.
Proof.
  rewrite <- list_elem_of_In, list_elem_of_omap.
  split; intros (x & Hx & Hf); exists x; split; try assumption;
    now apply list_elem_of_In.
Qed.



(** C5: a post whose cleaned text is empty leaves both lists of the post
    loop as they were; every record a turn of the topic loop adds to the
    combined list has a non-empty [content], which is the cleaned text of
    a post of that topic; and when the turn writes the topic's file, the
    file holds exactly these records and its [posts_count] is their
    number. *)
Theorem only_posts_with_text_are_emitted
    (topic : Topic) (acc : list PostData * nat) (w w' : World)
    (all_posts : list PostData) (processed : nat) :
  topic_step acc topic w = (Returns (all_posts, processed), w') ->
  (forall reply_counter accepted lists post,
      clean_text (get (p_cooked post) "") = "" ->
      post_step topic reply_counter accepted lists post = lists)
  /\ exists survivors,
       all_posts = fst acc ++ survivors
       /\ (forall post_data, In post_data survivors ->
             content post_data <> ""
             /\ exists topic_data post,
                  parsed_topic (topic_url topic) = Some topic_data
                  /\ In post (posts_field topic_data)
                  /\ content post_data = clean_text (get (p_cooked post) ""))
       /\ (survivors = [] /\ writes w' = writes w
           \/ exists metadata,
                writes w' = writes w ++ [(path_join OUTPUT_DIR (topic_filename topic),
                                          TopicFile metadata survivors)]
                /\ posts_count metadata = length survivors).
Proof.
  intros Hstep. split.
  - intros reply_counter accepted lists post Hempty.
    now rewrite post_step_eq, emitted_empty.
  - rewrite topic_step_eq in Hstep.
    destruct (parse_date (t_created_at topic)) as [created_at|e]; [|discriminate].
    destruct (in_range created_at).
    + injection Hstep as Hposts Hprocessed Hworld. subst all_posts processed w'.
      exists (topic_records topic).
      split; [reflexivity|]. split.
      * unfold topic_records. intros post_data Hin.
        destruct (parsed_topic (topic_url topic)) as [topic_data|]; [|contradiction].
        apply In_omap in Hin as (post & Hpost & Hemit).
        apply emitted_Some in Hemit as (_ & _ & Hcontent & Hne & _).
        split; [assumption|]. now exists topic_data, post.
      * cbn [writes]. unfold topic_writes.
        destruct (topic_records topic) as [|r rs] eqn:Hrecs.
        -- left. now rewrite app_nil_r.
        -- right. eexists. split; reflexivity.
    + injection Hstep as Hacc Hworld. subst acc w'. exists []. cbn [fst].
      rewrite app_nil_r.
      split; [reflexivity|]. split; [intros ? []|]. left. split; reflexivity.
Qed.





(** *** Claims about the files of a run *)

Lemma length_append (s t : string) :
  String.length (s +:+ t) = String.length s + String.length t.
Proof. induction s as [|c s IH]; simpl; [reflexivity | now rewrite IH]. Qed.

Lemma append_inj_r (t : string) : forall s1 s2 : string, s1 +:+ t = s2 +:+ t -> s1 = s2.
Proof.
  induction s1 as [|c s1 IH]; intros [|c' s2] Heq.
  - reflexivity.
  - apply (f_equal String.length) in Heq. rewrite !length_append in Heq.
    cbn [String.length] in Heq. lia.
  - apply (f_equal String.length) in Heq. rewrite !length_append in Heq.
    cbn [String.length] in Heq. lia.
  - injection Heq as -> Heq. f_equal. now apply IH.
Qed.

Lemma topic_path_inj (t1 t2 : Topic) :
  path_join OUTPUT_DIR (topic_filename t1) = path_join OUTPUT_DIR (topic_filename t2) ->
  t_id t1 = t_id t2.
Proof.
  unfold path_join, topic_filename. intros Heq.
  do 3 apply String.app_inj in Heq.
  apply append_inj_r in Heq. now apply pretty_Z_inj in Heq.
Qed.

Lemma In_topic_writes (entry : string * File) (topics : list Topic) :
  In entry (concat (map topic_writes topics)) ->
  exists topic,
    In topic topics /\ topic_records topic <> []
    /\ entry = (path_join OUTPUT_DIR (topic_filename topic),
                TopicFile (make_topic_metadata topic (topic_records topic))
                          (topic_records topic)).
Proof.
  induction topics as [|t topics IH]; [intros []|].
  cbn [map concat]. intros [Hin|Hin]%in_app_or.
  - exists t. unfold topic_writes in Hin.
    destruct (topic_records t) eqn:Hrecs; [contradiction|].
    destruct Hin as [<-|[]]. repeat split; [now left | discriminate].
  - destruct (IH Hin) as (topic & Hmem & Hne & ->).
    exists topic. repeat split; [now right | assumption].
Qed.

Lemma topic_writes_posts (topics : list Topic) :
  concat (map posts_in (concat (map topic_writes topics)))
    = concat (map topic_records topics).
Proof.
  induction topics as [|t topics IH]; [reflexivity|].
  cbn [map concat]. rewrite map_app, concat_app, IH. f_equal.
  unfold topic_writes. destruct (topic_records t); [reflexivity|].
  cbn. now rewrite app_nil_r.
Qed.

Lemma NoDup_selected_ids (topics : list Topic) :
  NoDup (map t_id topics) -> NoDup (map t_id (List.filter selects topics)).
Proof.
  induction topics as [|t topics IH]; [trivial|].
  cbn [map List.filter]. intros [Hnotin Hrest]%NoDup_cons.
  destruct (selects t); [|now apply IH].
  cbn [map]. apply NoDup_cons. split; [|now apply IH].
  intros Hin. apply Hnotin.
  apply list_elem_of_In in Hin. apply list_elem_of_In.
  apply in_map_iff in Hin as (t' & Hid & Hmem%filter_In).
  apply in_map_iff. exists t'. tauto.
Qed.

Lemma NoDup_topic_paths (topics : list Topic) :
  NoDup (map t_id topics) -> NoDup (map fst (concat (map topic_writes topics))).
Proof.
  induction topics as [|t topics IH]; [intros _; constructor|].
  cbn [map concat]. intros [Hnotin Hrest]%NoDup_cons.
  rewrite map_app. unfold topic_writes at 1.
  destruct (topic_records t); [now apply IH|].
  cbn [map app fst]. apply NoDup_cons. split; [|now apply IH].
  intros Hin. apply Hnotin.
  apply list_elem_of_In in Hin. apply list_elem_of_In.
  apply in_map_iff in Hin as (entry & Hpath & Hentry).
  apply In_topic_writes in Hentry as (t' & Hmem & _ & ->).
  cbn [fst] in Hpath. apply topic_path_inj in Hpath.
  apply in_map_iff. now exists t'.
Qed.

Lemma final_content_app (ws ws' : list (string * File)) (path : string) :
  final_content (ws ++ ws') path =
    match final_content ws' path with
    | Some f => Some f
    | None => final_content ws path
    end.
Proof.
  induction ws as [|[p f] ws IH]; simpl.
  - now destruct (final_content ws' path).
  - rewrite IH. now destruct (final_content ws' path).
Qed.

Lemma final_content_absent (ws : list (string * File)) (path : string) :
  ~ In path (map fst ws) -> final_content ws path = None.
Proof.
  induction ws as [|[p f] ws IH]; [reflexivity|].
  cbn [map fst In final_content]. intros Hnot.
  rewrite IH by tauto.
  destruct (String.eqb_spec p path); [tauto | reflexivity].
Qed.

Lemma final_content_last (ws : list (string * File)) (path : string) (f : File) :
  final_content (ws ++ [(path, f)]) path = Some f.
Proof. rewrite final_content_app. simpl. now rewrite String.eqb_refl. Qed.

Lemma topic_path_not_combined (topic : Topic) :
  path_join OUTPUT_DIR (topic_filename topic) <> combined_output_file.
Proof.
  unfold path_join, topic_filename, combined_output_file, OUTPUT_DIR. intros Heq.
  cbv [String.append] in Heq. injection Heq as Heq. discriminate Heq.
Qed.

Lemma topic_path_not_summary (topic : Topic) :
  path_join OUTPUT_DIR (topic_filename topic) <> summary_file.
Proof.
  unfold path_join, topic_filename, summary_file, OUTPUT_DIR. intros Heq.
  cbv [String.append] in Heq. injection Heq as Heq. discriminate Heq.
Qed.

Lemma topic_writes_paths (path : string) (topics : list Topic) :
  In path (map fst (concat (map topic_writes topics))) ->
  exists topic, In topic topics /\ path = path_join OUTPUT_DIR (topic_filename topic).
Proof.
  intros (entry & <- & Hentry)%in_map_iff.
  apply In_topic_writes in Hentry as (topic & Hmem & _ & ->). eauto.
Qed.

Lemma final_content_unique (ws : list (string * File)) (entry : string * File) :
  NoDup (map fst ws) -> In entry ws -> final_content ws (fst entry) = Some (snd entry).
Proof.
  induction ws as [|[p f] ws IH]; [intros _ []|].
  cbn [map fst]. intros [Hnotin Hrest]%NoDup_cons [<-|Hin]; cbn [final_content fst snd].
  - rewrite final_content_absent by (now rewrite <- list_elem_of_In).
    now rewrite String.eqb_refl.
  - now rewrite (IH Hrest Hin).
Qed.

Lemma filter_all {A : Type} (f : A -> bool) (l : list A) :
  (forall x, In x l -> f x = true) -> List.filter f l = l.
Proof.
  induction l as [|x l IH]; intros Hall; [reflexivity|].
  cbn [List.filter]. rewrite (Hall x) by now left.
  f_equal. apply IH. intros y Hy. apply Hall. now right.
Qed.

Lemma remove_dups_NoDup {A : Type} `{EqDecision A} (l : list A) :
  NoDup l -> remove_dups l = l.
Proof.
  induction l as [|x l IH]; [reflexivity|].
  intros [Hnotin Hrest]%NoDup_cons. cbn [remove_dups].
  destruct (decide_rel elem_of x l); [contradiction|]. now rewrite IH.
Qed.

(** C9, as the script behaves: a run over a listing of dated topics
    returns, having written one per-topic file for each processed topic
    with surviving posts, then the combined file, then the summary; the
    records of the combined file are those of these writes taken in
    order, so their number is the sum of the lengths of the written
    [posts] lists. When the listed topics have distinct ids, no per-topic
    file is written twice, every one of them is on disk as written, and
    the number of records of the combined file is the sum over the
    per-topic files of the run. *)
Theorem combined_count_is_sum_of_topic_files
    (fuel : nat) (w w1 : World) (all_topics : list Topic) :
  list_topics fuel 0 [] w = (Returns all_topics, w1) ->
  Forall well_dated all_topics ->
  exists w' topic_files combined summary,
    scrape_posts fuel w = (Returns tt, w')
    /\ writes w' = writes w ++ topic_files ++
                   [(combined_output_file, CombinedFile combined);
                    (summary_file, SummaryFile summary)]
    /\ Forall (fun entry =>
                 exists topic metadata records,
                   In topic all_topics
                   /\ entry = (path_join OUTPUT_DIR (topic_filename topic),
                               TopicFile metadata records)) topic_files
    /\ combined = concat (map posts_in topic_files)
    /\ length combined = list_sum (map (fun entry => length (posts_in entry)) topic_files)
    /\ total_posts summary = length combined
    /\ (NoDup (map t_id all_topics) ->
        NoDup (map fst topic_files)
        /\ (forall entry, In entry topic_files ->
              final_content (writes w') (fst entry) = Some (snd entry))
        /\ length combined
           = list_sum (map (records_at (writes w')) (topic_paths_written w w'))).
Proof.
  intros Hlist Hdated.
  pose proof (list_topics_writes fuel 0 [] w) as Hw. rewrite Hlist in Hw. cbn [snd] in Hw.
  eexists _, _, _, _.
  split; [apply (scrape_posts_returns _ _ _ _ Hlist Hdated)|].
  cbn [writes]. rewrite Hw.
  split; [reflexivity|]. split; [|split; [|split; [|split]]].
  - apply Forall_forall. intros entry Hin%list_elem_of_In.
    apply In_topic_writes in Hin as (topic & Hmem%filter_In & _ & ->).
    exists topic. eexists _, _. split; [tauto | reflexivity].
  - now rewrite topic_writes_posts.
  - rewrite <- topic_writes_posts, length_concat, map_map. reflexivity.
  - reflexivity.
  - intros Hids.
    set (topic_files := concat (map topic_writes (List.filter selects all_topics))).
    assert (Hpaths : NoDup (map fst topic_files))
      by now apply NoDup_topic_paths, NoDup_selected_ids.
    assert (Hdisk : forall entry, In entry topic_files ->
              final_content
                (writes w ++ topic_files ++
                 [(combined_output_file,
                   CombinedFile (concat (map topic_records (List.filter selects all_topics))));
                  (summary_file,
                   SummaryFile
                     (make_summary
                        (concat (map topic_records (List.filter selects all_topics)))
                        (length (List.filter selects all_topics))
                        (map topic_filename (List.filter selects all_topics))))])
                (fst entry) = Some (snd entry)).
    { intros entry Hin.
      destruct (In_topic_writes _ _ Hin) as (topic & _ & _ & Hentry).
      assert (Hp : fst entry = path_join OUTPUT_DIR (topic_filename topic))
        by now rewrite Hentry.
      rewrite app_assoc, final_content_app. cbn [final_content].
      destruct (String.eqb_spec summary_file (fst entry)) as [Heq|_];
        [rewrite Hp in Heq; symmetry in Heq; now apply topic_path_not_summary in Heq|].
      destruct (String.eqb_spec combined_output_file (fst entry)) as [Heq|_];
        [rewrite Hp in Heq; symmetry in Heq; now apply topic_path_not_combined in Heq|].
      rewrite final_content_app.
      now rewrite (final_content_unique topic_files entry Hpaths Hin). }
    split; [exact Hpaths|]. split; [exact Hdisk|].
    transitivity (list_sum (map (fun entry => length (posts_in entry)) topic_files)).
    { unfold topic_files. now rewrite <- topic_writes_posts, length_concat, map_map. }
    unfold topic_paths_written. cbn [writes].
    rewrite drop_app_length, List.filter_app. cbn [List.filter is_topic_file snd app].
    rewrite app_nil_r, (filter_all is_topic_file topic_files).
    + rewrite remove_dups_NoDup by exact Hpaths.
      rewrite map_map. f_equal.
      apply map_ext_in. intros entry Hin. unfold records_at.
      rewrite (Hdisk entry Hin). unfold posts_in.
      destruct (In_topic_writes _ _ Hin) as (topic & _ & _ & ->). reflexivity.
    + intros entry Hin.
      destruct (In_topic_writes _ _ Hin) as (topic & _ & _ & ->). reflexivity.
Qed.

(** C8: [parse_date] returns what the format with fractional seconds
    yields, and what the format without them yields when the first one
    does not match. When neither matches it raises [ValueError], which no
    handler of the topic loop catches: the loop stops at that topic
    without looking at the ones that follow, and the run ends with the
    exception. *)
Theorem parse_date_accepts_both_formats (date_str : string) :
  (forall d, strptime date_str FORMAT_FRACTION = Some d -> parse_date date_str = Ok d)
  /\ (forall d, strptime date_str FORMAT_FRACTION = None ->
                strptime date_str FORMAT_SECONDS = Some d -> parse_date date_str = Ok d)
  /\ (strptime date_str FORMAT_FRACTION = None ->
      strptime date_str FORMAT_SECONDS = None ->
      parse_date date_str = Raise ValueError
      /\ forall topic, t_created_at topic = date_str ->
           (forall acc rest w,
               for_each topic_step acc (topic :: rest) w = (Raises ValueError, w))
           /\ (forall fuel w w1 all_topics,
                  list_topics fuel 0 [] w = (Returns all_topics, w1) ->
                  In topic all_topics ->
                  fst (scrape_posts fuel w) = Raises ValueError)).
Proof.
  unfold parse_date. split; [|split].
  - now intros d ->.
  - now intros d -> ->.
  - intros Hfraction Hseconds.
    assert (Hbad : parse_date date_str = Raise ValueError)
      by (unfold parse_date; now rewrite Hfraction, Hseconds).
    split; [exact Hbad|]. intros topic <-. split.
    + intros acc rest w. cbn [for_each]. unfold bind.
      now rewrite topic_step_eq, Hbad.
    + intros fuel w w1 all_topics Hlist Hmem.
      destruct (scrape_posts_raises fuel w w1 all_topics Hlist)
        as (? & ? & ? & _ & _ & _ & ->); [|reflexivity].
      intros Hall. rewrite Forall_forall in Hall.
      destruct (Hall topic) as [d Hd]; [now apply list_elem_of_In|]. congruence.
Qed.

(** C10: a listed topic whose creation time cannot be parsed is not
    selected by the range test, yet its turn of the topic loop raises
    before any request is made; the list of files of the summary raises
    as well wherever the topic stands in the listing; and a run over a
    listing that holds such a topic ends with [ValueError], having
    written per-topic files at most: neither the combined file nor the
    summary. *)
Theorem undated_topic_aborts_run (topic : Topic) :
  parse_date (t_created_at topic) = Raise ValueError ->
  selects topic = false
  /\ (forall acc w, topic_step acc topic w = (Raises ValueError, w))
  /\ (forall pre rest, individual_topic_files (pre ++ topic :: rest) = Raise ValueError)
  /\ (forall fuel w w1 all_topics,
         list_topics fuel 0 [] w = (Returns all_topics, w1) ->
         In topic all_topics ->
         exists w' written,
           scrape_posts fuel w = (Raises ValueError, w')
           /\ writes w' = writes w ++ written
           /\ Forall (fun entry => exists metadata records,
                                     snd entry = TopicFile metadata records) written).
Proof.
  intros Hbad. split; [|split; [|split]].
  - unfold selects. now rewrite Hbad.
  - intros acc w. now rewrite topic_step_eq, Hbad.
  - intros pre rest. now apply individual_topic_files_raises.
  - intros fuel w w1 all_topics Hlist Hmem.
    destruct (scrape_posts_raises fuel w w1 all_topics Hlist)
      as (pre & t & rest & _ & _ & _ & Hrun).
    + intros Hall. rewrite Forall_forall in Hall.
      destruct (Hall topic) as [d Hd]; [now apply list_elem_of_In|]. congruence.
    + pose proof (list_topics_writes fuel 0 [] w) as Hw.
      rewrite Hlist in Hw. cbn [snd] in Hw.
      eexists _, _. split; [exact Hrun|]. cbn [writes]. rewrite Hw.
      split; [reflexivity|].
      apply Forall_forall. intros entry Hin%list_elem_of_In.
      apply In_topic_writes in Hin as (t' & _ & _ & ->). cbn [snd]. eauto.
Qed.

(** *** Further properties of the listing *)

Lemma list_topics_raises_from (bodies : nat -> Json) (e : exn) (n : nat) :
  forall (fuel page_num : nat) (all_topics : list Topic) (w : World),
    (forall k, page_num <= k < page_num + n ->
               page_body k = Ok (bodies k) /\ topics_field (bodies k) <> []) ->
    page_body (page_num + n) = Raise e ->
    n < fuel ->
    list_topics fuel page_num all_topics w =
      (Raises e,
       {| requests := requests w ++ map paginated_url (seq page_num (S n));
          writes := writes w |}).
Proof.
  induction n as [|n IH]; intros fuel page_num all_topics w Hfull Hlast Hfuel.
  - destruct fuel as [|fuel]; [lia|]. rewrite Nat.add_0_r in *.
    simpl. unfold bind. now rewrite fetch_page_eq, Hlast.
  - destruct fuel as [|fuel]; [lia|].
    destruct (Hfull page_num ltac:(lia)) as [Hbody Hne].
    cbn [list_topics]. unfold bind at 1. rewrite fetch_page_eq, Hbody.
    destruct (topics_field (bodies page_num)) as [|t ts] eqn:Hts; [congruence|].
    rewrite (IH fuel (S page_num)); cbn [requests writes].
    + f_equal. f_equal. rewrite <- app_assoc. reflexivity.
    + intros k Hk. apply Hfull. lia.
    + now replace (S page_num + n) with (page_num + S n) by lia.
    + lia.
Qed.

Lemma list_topics_running_from (bodies : nat -> Json) (fuel : nat) :
  forall (page_num : nat) (all_topics : list Topic) (w : World),
    (forall k, page_num <= k < page_num + fuel ->
               page_body k = Ok (bodies k) /\ topics_field (bodies k) <> []) ->
    list_topics fuel page_num all_topics w =
      (Running,
       {| requests := requests w ++ map paginated_url (seq page_num fuel);
          writes := writes w |}).
Proof.
  induction fuel as [|fuel IH]; intros page_num all_topics w Hfull.
  - simpl. rewrite app_nil_r. now destruct w.
  - destruct (Hfull page_num ltac:(lia)) as [Hbody Hne].
    cbn [list_topics]. unfold bind at 1. rewrite fetch_page_eq, Hbody.
    destruct (topics_field (bodies page_num)) as [|t ts] eqn:Hts; [congruence|].
    rewrite (IH (S page_num)); cbn [requests writes].
    + f_equal. f_equal. rewrite <- app_assoc. reflexivity.
    + intros k Hk. apply Hfull. lia.
Qed.

Lemma page_body_raises (page_num : nat) (e : exn) :
  page_body page_num = Raise e <->
  goto (site (paginated_url page_num)) = Raise e
  \/ (exists u first, goto (site (paginated_url page_num)) = Ok u
        /\ inner_text_json (site (paginated_url page_num)) = Raise first
        /\ content_json (site (paginated_url page_num)) = Raise e).
Proof.
  unfold page_body, parsed_page.
  destruct (goto (site (paginated_url page_num))) as [u|e0].
  - destruct (inner_text_json (site (paginated_url page_num))) as [data|first].
    + split; [discriminate|]. intros [H|(? & ? & _ & H & _)]; discriminate.
    + split.
      * intros H. right. now exists u, first.
      * intros [H|(? & ? & _ & _ & H)]; [discriminate | assumption].
  - split.
    + intros [= ->]. now left.
    + intros [H|(? & ? & H & _)]; [congruence | discriminate].
Qed.

(** X1: an error on a listing page ends the whole run. When the first
    [n] pages hold topics and page [n] cannot be opened, or is opened but
    neither its text nor its content is JSON, the run raises that
    exception right after asking for page [n]: no topic is fetched and no
    file is written, whatever the earlier pages listed. *)
Theorem listing_error_ends_run
    (bodies : nat -> Json) (e : exn) (n fuel : nat) (w : World) :
  (forall k, k < n -> page_body k = Ok (bodies k) /\ topics_field (bodies k) <> []) ->
  (goto (site (paginated_url n)) = Raise e
   \/ exists u first, goto (site (paginated_url n)) = Ok u
        /\ inner_text_json (site (paginated_url n)) = Raise first
        /\ content_json (site (paginated_url n)) = Raise e) ->
  n < fuel ->
  scrape_posts fuel w =
    (Raises e,
     {| requests := requests w ++ map paginated_url (seq 0 (S n));
        writes := writes w |}).
Proof.
  intros Hfull Hfail%page_body_raises Hfuel.
  unfold scrape_posts, bind at 1.
  rewrite (list_topics_raises_from bodies e n fuel 0 [] w); trivial.
  intros k Hk. apply Hfull. lia.
Qed.

(** X2: the listing has no page limit. As long as every page asked for
    holds at least one topic, the loop is still asking for the next page:
    after [fuel] turns it has requested pages 0 to [fuel - 1], fetched no
    topic and written nothing. *)
Theorem listing_has_no_page_limit (bodies : nat -> Json) (fuel : nat) (w : World) :
  (forall k, k < fuel -> page_body k = Ok (bodies k) /\ topics_field (bodies k) <> []) ->
  scrape_posts fuel w =
    (Running,
     {| requests := requests w ++ map paginated_url (seq 0 fuel);
        writes := writes w |}).
Proof.
  intros Hfull. unfold scrape_posts, bind at 1.
  rewrite (list_topics_running_from bodies fuel 0 [] w); trivial.
  intros k Hk. apply Hfull. lia.
Qed.

Lemma topic_url_not_page (topic : Topic) (page_num : nat) :
  topic_url topic <> paginated_url page_num.
Proof.
  unfold topic_url, paginated_url, CATEGORY_JSON_URL, BASE_URL. intros Heq.
  cbv [String.append] in Heq. injection Heq as Heq. discriminate Heq.
Qed.

Lemma paginated_url_inj (j k : nat) : paginated_url j = paginated_url k -> j = k.
Proof.
  unfold paginated_url. intros Heq.
  do 2 apply String.app_inj in Heq. now apply pretty_nat_inj in Heq.
Qed.

Lemma NoDup_pages (start len : nat) : NoDup (map paginated_url (seq start len)).
Proof.
  apply NoDup_fmap_2; [intros j k; apply paginated_url_inj | apply NoDup_seq].
Qed.

(** X3: the requests of a run that returns. With page [n] the first empty
    page and every listed topic dated, the run asks for pages 0 to [n],
    each exactly once and in this order, and then for the pages of the
    in-range topics in listed order; the address of a topic is never that
    of a listing page, so no listing page is asked for twice or after the
    empty one. *)
Theorem requests_of_a_run
    (bodies : nat -> Json) (n fuel : nat) (w : World) :
  (forall k, k <= n -> page_body k = Ok (bodies k)) ->
  (forall k, k < n -> topics_field (bodies k) <> []) ->
  topics_field (bodies n) = [] ->
  n < fuel ->
  Forall well_dated (concat (map (fun k => topics_field (bodies k)) (seq 0 n))) ->
  exists w',
    scrape_posts fuel w = (Returns tt, w')
    /\ requests w' =
         requests w ++ map paginated_url (seq 0 (S n)) ++
         map topic_url
             (List.filter selects (concat (map (fun k => topics_field (bodies k)) (seq 0 n))))
    /\ NoDup (map paginated_url (seq 0 (S n)))
    /\ forall topic k, topic_url topic <> paginated_url k.
Proof.
  intros Hbody Hne Hempty Hfuel Hdated.
  assert (Hlist : list_topics fuel 0 [] w =
            (Returns (concat (map (fun k => topics_field (bodies k)) (seq 0 n))),
             {| requests := requests w ++ map paginated_url (seq 0 (S n));
                writes := writes w |})).
  { apply (list_topics_from bodies n fuel 0 [] w); trivial.
    - intros k Hk. split; [apply Hbody | apply Hne]; lia.
    - apply Hbody. lia. }
  eexists. split; [apply (scrape_posts_returns _ _ _ _ Hlist Hdated)|].
  cbn [requests]. rewrite <- app_assoc.
  split; [reflexivity|]. split; [apply NoDup_pages | apply topic_url_not_page].
Qed.

(** *** Further properties of the files *)

(** X4: the files a run leaves behind. A run over a listing of dated
    topics returns, and whatever the output directory held before, the
    combined file then holds the records of the in-range topics of this
    listing, topic after topic in listed order, and the summary file holds
    the summary of this run, the one written last: no per-topic file has
    the name of either. A path that is neither of the two nor the file of
    a listed in-range topic keeps the content it had: the run deletes
    nothing, so the file of a topic that was written by an earlier run and
    is out of range, unlisted or unreadable now stays as it was. *)
Theorem files_after_a_run
    (fuel : nat) (w w1 : World) (all_topics : list Topic) :
  list_topics fuel 0 [] w = (Returns all_topics, w1) ->
  Forall well_dated all_topics ->
  exists w' combined summary,
    scrape_posts fuel w = (Returns tt, w')
    /\ combined = concat (map topic_records (List.filter selects all_topics))
    /\ summary = make_summary combined (length (List.filter selects all_topics))
                              (map topic_filename (List.filter selects all_topics))
    /\ summary_of w' = Some summary
    /\ final_content (writes w') combined_output_file = Some (CombinedFile combined)
    /\ final_content (writes w') summary_file = Some (SummaryFile summary)
    /\ (forall topic, path_join OUTPUT_DIR (topic_filename topic) <> combined_output_file
                      /\ path_join OUTPUT_DIR (topic_filename topic) <> summary_file)
    /\ (forall path,
          path <> combined_output_file -> path <> summary_file ->
          (forall topic, In topic all_topics -> selects topic = true ->
                         parsed_topic (topic_url topic) <> None ->
                         path <> path_join OUTPUT_DIR (topic_filename topic)) ->
          final_content (writes w') path = final_content (writes w) path).
Proof.
  intros Hlist Hdated.
  pose proof (list_topics_writes fuel 0 [] w) as Hw. rewrite Hlist in Hw. cbn [snd] in Hw.
  pose proof (scrape_posts_returns _ _ _ _ Hlist Hdated) as Hrun.
  eexists _, _, _.
  split; [exact Hrun|]. split; [reflexivity|]. split; [reflexivity|].
  split; [apply (scrape_posts_summary _ _ _ _ _ Hlist Hrun)|].
  cbn [writes]. rewrite Hw.
  split; [|split; [|split]].
  - change [?a; ?b] with ([a] ++ [b]). rewrite !app_assoc, final_content_app.
    cbn [final_content]. change (String.eqb summary_file combined_output_file) with false.
    cbn iota. apply final_content_last.
  - change [?a; ?b] with ([a] ++ [b]). rewrite !app_assoc. apply final_content_last.
  - intros topic. split; [apply topic_path_not_combined | apply topic_path_not_summary].
  - intros path Hc Hs Htopics.
    rewrite app_assoc, final_content_app. cbn [final_content].
    destruct (String.eqb_spec summary_file path) as [Heq|_]; [congruence|].
    destruct (String.eqb_spec combined_output_file path) as [Heq|_]; [congruence|].
    rewrite final_content_app, final_content_absent; [reflexivity|].
    intros Hin. apply in_map_iff in Hin as (entry & <- & Hentry).
    apply In_topic_writes in Hentry as (topic & Hmem%filter_In & Hrecs & ->).
    apply (Htopics topic); try tauto.
    unfold topic_records in Hrecs. now destruct (parsed_topic (topic_url topic)).
Qed.

(** X5: the summary agrees with itself and covers the files. In the
    summary of a run over a listing of dated topics, [total_topics] is the
    length of the list under [individual_topics], [total_posts] is the
    number of records of the combined file, and every per-topic file the
    run wrote is named in that list. *)
Theorem summary_covers_written_files
    (fuel : nat) (w w1 : World) (all_topics : list Topic) :
  list_topics fuel 0 [] w = (Returns all_topics, w1) ->
  Forall well_dated all_topics ->
  exists w' written combined summary,
    scrape_posts fuel w = (Returns tt, w')
    /\ writes w' = writes w ++ written ++
                   [(combined_output_file, CombinedFile combined);
                    (summary_file, SummaryFile summary)]
    /\ summary_of w' = Some summary
    /\ total_topics summary = length (individual_topics summary)
    /\ total_posts summary = length combined
    /\ forall entry, In entry written ->
         exists name, fst entry = path_join OUTPUT_DIR name
                      /\ In name (individual_topics summary).
Proof.
  intros Hlist Hdated.
  pose proof (list_topics_writes fuel 0 [] w) as Hw. rewrite Hlist in Hw. cbn [snd] in Hw.
  pose proof (scrape_posts_returns _ _ _ _ Hlist Hdated) as Hrun.
  eexists _, _, _, _. split; [exact Hrun|].
  split; [cbn [writes]; rewrite Hw; reflexivity|].
  split; [apply (scrape_posts_summary _ _ _ _ _ Hlist Hrun)|].
  cbn [make_summary total_topics individual_topics total_posts].
  split; [now rewrite length_map|]. split; [reflexivity|].
  intros entry Hin.
  apply In_topic_writes in Hin as (topic & Hmem & _ & ->).
  exists (topic_filename topic). split; [reflexivity|]. now apply in_map.
Qed.

Lemma append_assoc (a b c : string) : (a +:+ b) +:+ c = a +:+ (b +:+ c).
Proof.
  induction a as [|x a IH]; [reflexivity|].
  change (String x ((a +:+ b) +:+ c) = String x (a +:+ (b +:+ c))). now rewrite IH.
Qed.

Lemma emitted_shape (topic : Topic) (reply_counter : gmap Z nat) (accepted : option Z)
    (post : Post) (post_data : PostData) :
  emitted topic reply_counter accepted post = Some post_data ->
  topic_id post_data = t_id topic
  /\ url post_data
     = tm_url (make_topic_metadata topic []) +:+ "/" +:+ pretty (post_number post_data)
  /\ reply_to_post_number post_data = p_reply_to_post_number post
  /\ (is_reply post_data = true <-> p_reply_to_post_number post <> None).
Proof.
  unfold emitted, make_post_data, subscript.
  destruct (String.eqb _ "") eqn:Hempty; [discriminate|].
  destruct (p_id post) as [id|]; [|discriminate].
  destruct (p_post_number post) as [number|]; [|discriminate].
  intros [= <-]. cbn [topic_id url post_number reply_to_post_number is_reply
                       make_topic_metadata tm_url].
  split; [reflexivity|]. split; [|split; [reflexivity|apply bool_decide_eq_true]].
  now rewrite !append_assoc.
Qed.

(** X6: what a per-topic file looks like. A turn of the topic loop adds at
    most one write, and it is a per-topic file under the topic's own name
    whose [posts] list is not empty; [posts_count] is at least 1, the
    metadata bear the topic's id, and every record bears that id, has the
    topic's address followed by its post number as [url], and has
    [is_reply] set exactly when it has a [reply_to_post_number]. *)
Theorem topic_file_is_consistent
    (topic : Topic) (acc : list PostData * nat) (w w' : World)
    (result : list PostData * nat) :
  topic_step acc topic w = (Returns result, w') ->
  writes w' = writes w
  \/ exists metadata records,
       writes w' = writes w ++ [(path_join OUTPUT_DIR (topic_filename topic),
                                 TopicFile metadata records)]
       /\ records <> []
       /\ 1 <= posts_count metadata
       /\ tm_topic_id metadata = t_id topic
       /\ forall post_data, In post_data records ->
            topic_id post_data = tm_topic_id metadata
            /\ url post_data = tm_url metadata +:+ "/" +:+ pretty (post_number post_data)
            /\ (is_reply post_data = true <-> reply_to_post_number post_data <> None).
Proof.
  rewrite topic_step_eq.
  destruct (parse_date (t_created_at topic)) as [created_at|e]; [|discriminate].
  destruct (in_range created_at); [|intros [= _ <-]; now left].
  intros [= _ <-]. cbn [writes]. unfold topic_writes.
  destruct (topic_records topic) as [|r rs] eqn:Hrecs; [left; now rewrite app_nil_r|].
  right. eexists _, _. split; [reflexivity|]. split; [discriminate|].
  split; [cbn; lia|]. split; [reflexivity|].
  intros post_data Hin. rewrite <- Hrecs in Hin. unfold topic_records in Hin.
  destruct (parsed_topic (topic_url topic)) as [topic_data|]; [|contradiction].
  apply In_omap in Hin as (post & _ & Hemit).
  apply emitted_shape in Hemit as (Hid & Hurl & Hreply & Hflag).
  split; [exact Hid|]. split; [exact Hurl|]. now rewrite Hreply.
Qed.

(** *** Further properties of the records *)

Lemma emitted_numbers_sublist (topic : Topic) (reply_counter : gmap Z nat)
    (accepted : option Z) (posts : list Post) :
  map post_number (omap (emitted topic reply_counter accepted) posts)
    `sublist_of` omap p_post_number posts.
Proof.
  induction posts as [|post posts IH]; [constructor|].
  cbn [omap list_omap].
  destruct (emitted topic reply_counter accepted post) as [post_data|] eqn:Hemit.
  - apply emitted_Some in Hemit as (_ & -> & _). cbn [map]. now apply sublist_skip.
  - destruct (p_post_number post); [now apply sublist_cons | assumption].
Qed.

Lemma omap_length_le {A B : Type} (f : A -> option B) (l : list A) :
  length (omap f l) <= length l.
Proof.
  induction l as [|x l IH]; [reflexivity|].
  cbn [omap list_omap length]. destruct (f x); cbn [length]; lia.
Qed.

(** X7: the records of a topic follow its post stream. The post loop
    appends the records it makes to the combined list in the same order as
    to the topic's own list; their post numbers are a subsequence of the
    post numbers of the stream, so there are no more records than posts,
    and they are pairwise distinct when those of the stream are. *)
Theorem records_follow_the_stream
    (topic : Topic) (reply_counter : gmap Z nat) (accepted : option Z)
    (posts : list Post) (all_posts : list PostData) :
  snd (fold_left (post_step topic reply_counter accepted) posts ([], all_posts))
    = all_posts ++ fst (fold_left (post_step topic reply_counter accepted) posts ([], all_posts))
  /\ map post_number
         (fst (fold_left (post_step topic reply_counter accepted) posts ([], all_posts)))
       `sublist_of` omap p_post_number posts
  /\ length (fst (fold_left (post_step topic reply_counter accepted) posts ([], all_posts)))
       <= length posts
  /\ (NoDup (omap p_post_number posts) ->
      NoDup (map post_number
               (fst (fold_left (post_step topic reply_counter accepted) posts
                               ([], all_posts))))).
Proof.
  rewrite fold_post_step. cbn [fst snd app].
  pose proof (emitted_numbers_sublist topic reply_counter accepted posts) as Hsub.
  split; [reflexivity|]. split; [exact Hsub|]. split.
  - apply sublist_length in Hsub. rewrite length_map in Hsub.
    etransitivity; [exact Hsub|]. apply omap_length_le.
  - intros Hnodup. eapply sublist_NoDup; eassumption.
Qed.




(** *** Further properties of the date range *)

Lemma lex_le_cons (x y : Z) (a b : list Z) :
  lex_compare (x :: a) (y :: b) <> Gt <-> (x < y)%Z \/ x = y /\ lex_compare a b <> Gt.
Proof.
  cbn [lex_compare]. destruct (Z.compare_spec x y) as [Heq|Hlt|Hgt].
  - split; [intros H; right; now split | intros [Hl|[_ H]]; [lia | exact H]].
  - split; [intros _; now left | intros _; discriminate].
  - split; [intros H; exfalso; now apply H | intros [Hl|[He _]]; lia].
Qed.

Lemma datetime_le_lex (a b : datetime) :
  datetime_le a b = true <-> lex_compare (fields a) (fields b) <> Gt.
Proof.
  unfold datetime_le, datetime_compare.
  destruct (lex_compare (fields a) (fields b)); split; congruence.
Qed.

(** X10: the date range, read on the fields. For a datetime whose fields
    are those of a date and a time of day, being in range means: the year
    is 2025 and the date is before 14 April, or it is 14 April at
    00:00:00 sharp. Any later instant of 14 April is out of range, and so
    is every instant of 2024. *)
Theorem date_range_on_fields (d : datetime) :
  plausible d ->
  (in_range d = true <->
     year d = 2025%Z
     /\ ((month d <= 3)%Z
         \/ month d = 4%Z
            /\ ((day d <= 13)%Z
                \/ day d = 14%Z /\ hour d = 0%Z /\ minute d = 0%Z
                   /\ second d = 0%Z /\ microsecond d = 0%Z))).
Proof.
  unfold plausible. intros Hd. rewrite in_range_bounds, !datetime_le_lex.
  unfold fields, DATE_FROM, DATE_TO. cbn [year month day hour minute second microsecond].
  rewrite !lex_le_cons. cbn [lex_compare].
  assert (Heq : (Eq <> Gt) <-> True) by (split; [trivial | discriminate]).
  rewrite !Heq. lia.
Qed.

(** *** Further properties of the topic loop *)

(** X11: nothing removes duplicates. When a topic in the date range is
    listed twice, its page is read twice and its records stand twice in
    the combined file, while its per-topic file, written twice under the
    same name, holds them once. *)
Theorem repeated_topic_is_recorded_twice
    (fuel : nat) (w w1 : World) (topic : Topic) (l1 l2 l3 : list Topic) :
  list_topics fuel 0 [] w = (Returns (l1 ++ topic :: l2 ++ topic :: l3), w1) ->
  Forall well_dated (l1 ++ topic :: l2 ++ topic :: l3) ->
  selects topic = true ->
  exists w' before between after,
    scrape_posts fuel w = (Returns tt, w')
    /\ final_content (writes w') combined_output_file
       = Some (CombinedFile (before ++ topic_records topic ++ between
                             ++ topic_records topic ++ after))
    /\ (topic_records topic <> [] ->
        (forall other, In other (l1 ++ l2 ++ l3) -> t_id other <> t_id topic) ->
        final_content (writes w') (path_join OUTPUT_DIR (topic_filename topic))
        = Some (TopicFile (make_topic_metadata topic (topic_records topic))
                          (topic_records topic))).
Proof.
  intros Hlist Hdated Hsel.
  pose proof (list_topics_writes fuel 0 [] w) as Hw. rewrite Hlist in Hw. cbn [snd] in Hw.
  eexists _, (concat (map topic_records (List.filter selects l1))),
          (concat (map topic_records (List.filter selects l2))),
          (concat (map topic_records (List.filter selects l3))).
  split; [apply (scrape_posts_returns _ _ _ _ Hlist Hdated)|].
  cbn [writes]. split.
  - change [?a; ?b] with ([a] ++ [b]). rewrite !app_assoc, final_content_app.
    cbn [final_content]. change (String.eqb summary_file combined_output_file) with false.
    cbn iota. rewrite final_content_last. do 2 f_equal.
    rewrite List.filter_app. cbn [List.filter]. rewrite Hsel, List.filter_app.
    cbn [List.filter]. rewrite Hsel.
    rewrite map_app, concat_app. cbn [map concat].
    rewrite map_app, concat_app. cbn [map concat].
    now rewrite <- !app_assoc.
  - intros Hrecs Hothers.
    rewrite app_assoc, final_content_app. cbn [final_content].
    destruct (String.eqb_spec summary_file (path_join OUTPUT_DIR (topic_filename topic)))
      as [Heq|_]; [symmetry in Heq; now apply topic_path_not_summary in Heq|].
    destruct (String.eqb_spec combined_output_file
                (path_join OUTPUT_DIR (topic_filename topic)))
      as [Heq|_]; [symmetry in Heq; now apply topic_path_not_combined in Heq|].
    rewrite final_content_app.
    rewrite List.filter_app. cbn [List.filter]. rewrite Hsel, List.filter_app.
    cbn [List.filter]. rewrite Hsel.
    rewrite map_app, concat_app. cbn [map concat].
    rewrite map_app, concat_app. cbn [map concat].
    assert (Hone : topic_writes topic =
              [(path_join OUTPUT_DIR (topic_filename topic),
                TopicFile (make_topic_metadata topic (topic_records topic))
                          (topic_records topic))]).
    { unfold topic_writes. now destruct (topic_records topic). }
    assert (Hskip : forall l, (forall other, In other l -> t_id other <> t_id topic) ->
              final_content (concat (map topic_writes (List.filter selects l)))
                            (path_join OUTPUT_DIR (topic_filename topic)) = None).
    { intros l Hl. apply final_content_absent. intros Hin.
      apply topic_writes_paths in Hin as (other & Hmem%filter_In & Hpath).
      apply topic_path_inj in Hpath. apply (Hl other); [tauto | congruence]. }
    rewrite !final_content_app, Hone.
    rewrite (Hskip l3) by (intros other Hin; apply Hothers; rewrite !in_app_iff; tauto).
    cbn [final_content]. now rewrite String.eqb_refl.
Qed.

End Scraper.

(** ** The sample forums, run *)

Local Open Scope list_scope.

Local Abbreviation sample_run :=
  (scrape_posts Reference.strptime Reference.clean_text Sample.now Sample.forum).
Local Abbreviation sample_step :=
  (topic_step Reference.strptime Reference.clean_text Sample.forum).
Local Abbreviation sample_date := (parse_date Reference.strptime).

Lemma sample_listing :
  list_topics Sample.forum 5 0 [] empty_world = (Returns Sample.all_topics, Sample.listed).
Proof. vm_compute. reflexivity. Qed.

Lemma sample_week1_step :
  sample_step ([], 0) Sample.week1 empty_world =
    (Returns (Sample.week1_records, 1),
     {| requests := [topic_url Sample.week1];
        writes := [(path_join OUTPUT_DIR "topic_7.json",
                    TopicFile (make_topic_metadata Sample.week1 Sample.week1_records)
                              Sample.week1_records)] |}).
Proof. vm_compute. reflexivity. Qed.

Lemma sample_run_returns :
  sample_run 5 empty_world =
    (Returns tt,
     {| requests := requests Sample.listed ++
                    [topic_url Sample.week1; topic_url Sample.first_day;
                     topic_url Sample.last_day];
        writes :=
          [(path_join OUTPUT_DIR "topic_7.json",
            TopicFile (make_topic_metadata Sample.week1 Sample.week1_records)
                      Sample.week1_records);
           (combined_output_file, CombinedFile Sample.week1_records);
           (summary_file,
            SummaryFile
              {| scraped_at := "2025-04-20T18:30:05.250000";
                 date_range_from := "2025-01-01T00:00:00";
                 date_range_to := "2025-04-14T00:00:00";
                 total_topics := 3;
                 total_posts := 3;
                 s_category_id := 34;
                 base_url := BASE_URL;
                 combined_posts := "discourse_posts.json";
                 individual_topics := ["topic_7.json"; "topic_9.json"; "topic_11.json"] |})] |}).
Proof. vm_compute. reflexivity. Qed.

(** C7, on the sample forum: pages 0 and 1 hold topics, page 2 is empty. *)
Lemma list_topics_stops_at_first_empty_page_witness :
  (forall k, k <= 2 -> page_body Sample.forum k = Ok (Sample.pages k))
  /\ list_topics Sample.forum 5 0 [] empty_world =
       (Returns (concat (map (fun k => topics_field (Sample.pages k)) (seq 0 2))),
        {| requests := requests empty_world ++ map paginated_url (seq 0 3);
           writes := writes empty_world |}).
Proof.
  assert (Hpages : forall k, k <= 2 -> page_body Sample.forum k = Ok (Sample.pages k)).
  { intros [|[|[|k]]] Hk; [vm_compute; reflexivity .. | lia]. }
  split; [exact Hpages|].
  apply (list_topics_stops_at_first_empty_page Sample.forum Sample.pages 2 5 empty_world).
  - exact Hpages.
  - intros [|[|k]] Hk; [discriminate | discriminate | lia].
  - reflexivity.
  - lia.
Defined.

(** C1, on the sample forum: [first_day] is in range and times out. *)
Lemma unreadable_topic_is_skipped_and_counted_witness :
  sample_date (t_created_at Sample.first_day) = Ok DATE_FROM
  /\ in_range DATE_FROM = true
  /\ parsed_topic Sample.forum (topic_url Sample.first_day) = None
  /\ sample_step (Sample.week1_records, 1) Sample.first_day Sample.listed =
       (Returns (Sample.week1_records, 2),
        {| requests := requests Sample.listed ++ [topic_url Sample.first_day];
           writes := writes Sample.listed |}).
Proof.
  assert (Hdate : sample_date (t_created_at Sample.first_day) = Ok DATE_FROM)
    by (vm_compute; reflexivity).
  assert (Hnone : parsed_topic Sample.forum (topic_url Sample.first_day) = None)
    by (vm_compute; reflexivity).
  split; [exact Hdate|]. split; [exact in_range_DATE_FROM|]. split; [exact Hnone|].
  exact (proj1 (unreadable_topic_is_skipped_and_counted
                  Reference.strptime Reference.clean_text Sample.now Sample.forum
                  Sample.first_day DATE_FROM (Sample.week1_records, 1) Sample.listed
                  Hdate in_range_DATE_FROM Hnone)).
Defined.

(** The reading of C1 in which the summary leaves the unreadable topic out
    fails on the sample forum: three topics are in range, [first_day]
    cannot be read, and the summary says 3. *)
Lemma total_topics_counts_unreadable_topics :
  ~ counts_loaded_topics_only Reference.strptime Reference.clean_text Sample.now Sample.forum.
Proof.
  intros Hclaim.
  pose proof (Hclaim 5 empty_world _ _ _ _ sample_listing sample_run_returns eq_refl) as H.
  vm_compute in H. discriminate.
Qed.

(** C2, on the sample forum: the summary lists a file for each of the three
    in-range topics, while the run wrote a file for [week1] only:
    [first_day] timed out and [last_day] has no posts. *)
Lemma summary_lists_files_never_written :
  exists w summary,
    sample_run 5 empty_world = (Returns tt, w)
    /\ summary_of w = Some summary
    /\ individual_topics summary = ["topic_7.json"; "topic_9.json"; "topic_11.json"]
    /\ map fst (writes w) =
         [path_join OUTPUT_DIR "topic_7.json"; combined_output_file; summary_file]
    /\ ~ In (path_join OUTPUT_DIR "topic_9.json") (map fst (writes w))
    /\ ~ In (path_join OUTPUT_DIR "topic_11.json") (map fst (writes w)).
Proof.
  eexists _, _. split; [apply sample_run_returns|].
  split; [reflexivity|]. split; [reflexivity|]. split; [reflexivity|].
  split; vm_compute; intros [H|[H|[H|[]]]]; discriminate.
Qed.

(** C3, on the sample forum: [first_day] was created exactly at [DATE_FROM]
    and is processed, [late] one millisecond after [DATE_TO] and is not. *)
Lemma topic_processed_iff_in_range_witness :
  sample_date (t_created_at Sample.first_day) = Ok DATE_FROM
  /\ (exists all_posts w',
        sample_step ([], 0) Sample.first_day empty_world = (Returns (all_posts, 1), w')
        /\ requests w' = requests empty_world ++ [topic_url Sample.first_day])
  /\ sample_date (t_created_at Sample.late) = Ok (Datetime 2025 4 14 0 0 0 1000)
  /\ sample_step ([], 0) Sample.late empty_world = (Returns ([], 0), empty_world).
Proof.
  assert (Hfirst : sample_date (t_created_at Sample.first_day) = Ok DATE_FROM)
    by (vm_compute; reflexivity).
  assert (Hlate : sample_date (t_created_at Sample.late) = Ok (Datetime 2025 4 14 0 0 0 1000))
    by (vm_compute; reflexivity).
  split; [exact Hfirst|]. split; [|split; [exact Hlate|]].
  - apply (topic_processed_iff_in_range
             Reference.strptime Reference.clean_text Sample.now Sample.forum
             Sample.first_day DATE_FROM ([], 0) empty_world Hfirst).
    reflexivity.
  - apply (topic_processed_iff_in_range
             Reference.strptime Reference.clean_text Sample.now Sample.forum
             Sample.late _ ([], 0) empty_world Hlate).
    reflexivity.
Defined.


(** C5, on the sample forum: [week1] has four posts, three with text. *)
Lemma only_posts_with_text_are_emitted_witness :
  sample_step ([], 0) Sample.week1 empty_world =
    (Returns (Sample.week1_records, 1),
     {| requests := [topic_url Sample.week1];
        writes := [(path_join OUTPUT_DIR "topic_7.json",
                    TopicFile (make_topic_metadata Sample.week1 Sample.week1_records)
                              Sample.week1_records)] |})
  /\ exists survivors,
       Sample.week1_records = [] ++ survivors
       /\ forall post_data, In post_data survivors -> content post_data <> "".
Proof.
  split; [exact sample_week1_step|].
  destruct (proj2 (only_posts_with_text_are_emitted
                     Reference.strptime Reference.clean_text Sample.forum
                     Sample.week1 ([], 0) empty_world _ _ _ sample_week1_step))
    as (survivors & Hall & Htext & _).
  exists survivors. split; [exact Hall|].
  intros post_data Hin. exact (proj1 (Htext post_data Hin)).
Defined.



(** C8, on the reference [strptime]: one timestamp of each format, and one
    of neither. *)
Lemma parse_date_accepts_both_formats_witness :
  sample_date "2025-02-01T10:00:00.000Z" = Ok (Datetime 2025 2 1 10 0 0 0)
  /\ sample_date "2025-01-01T00:00:00Z" = Ok DATE_FROM
  /\ sample_date "31/12/2024" = Raise ValueError
  /\ fst (scrape_posts Reference.strptime Reference.clean_text Sample.now
                       Sample.forum_with_broken_topic 5 empty_world) = Raises ValueError.
Proof.
  split; [|split; [|split]].
  - apply (proj1 (parse_date_accepts_both_formats
                    Reference.strptime Reference.clean_text Sample.now Sample.forum
                    "2025-02-01T10:00:00.000Z")).
    vm_compute. reflexivity.
  - apply (proj1 (proj2 (parse_date_accepts_both_formats
                           Reference.strptime Reference.clean_text Sample.now Sample.forum
                           "2025-01-01T00:00:00Z"))).
    + vm_compute. reflexivity.
    + vm_compute. reflexivity.
  - apply (proj2 (proj2 (parse_date_accepts_both_formats
                           Reference.strptime Reference.clean_text Sample.now Sample.forum
                           "31/12/2024"))).
    + vm_compute. reflexivity.
    + vm_compute. reflexivity.
  - refine (proj2 (proj2 (proj2 (proj2 (parse_date_accepts_both_formats
              Reference.strptime Reference.clean_text Sample.now
              Sample.forum_with_broken_topic "31/12/2024")) _ _) Sample.broken eq_refl)
              5 empty_world _ [Sample.week1; Sample.broken] _ _).
    + vm_compute. reflexivity.
    + vm_compute. reflexivity.
    + vm_compute. reflexivity.
    + right. left. reflexivity.
Defined.

(** C9, on the sample forum: one per-topic file with three records, and
    three records in the combined file. *)
Lemma combined_count_is_sum_of_topic_files_witness :
  list_topics Sample.forum 5 0 [] empty_world = (Returns Sample.all_topics, Sample.listed)
  /\ Forall (well_dated Reference.strptime) Sample.all_topics
  /\ exists w' topic_files combined summary,
       sample_run 5 empty_world = (Returns tt, w')
       /\ writes w' = writes empty_world ++ topic_files ++
                      [(combined_output_file, CombinedFile combined);
                       (summary_file, SummaryFile summary)]
       /\ length combined
          = list_sum (map (fun entry => length (posts_in entry)) topic_files)
       /\ NoDup (map fst topic_files).
Proof.
  assert (Hdated : Forall (well_dated Reference.strptime) Sample.all_topics).
  { repeat constructor; eexists; vm_compute; reflexivity. }
  split; [exact sample_listing|]. split; [exact Hdated|].
  destruct (combined_count_is_sum_of_topic_files
              Reference.strptime Reference.clean_text Sample.now Sample.forum
              5 empty_world _ _ sample_listing Hdated)
    as (w' & topic_files & combined & summary & Hrun & Hwrites & _ & _ & Hsum & _ & Hpaths).
  exists w', topic_files, combined, summary.
  split; [exact Hrun|]. split; [exact Hwrites|]. split; [exact Hsum|].
  apply Hpaths. apply (bool_decide_unpack _). vm_compute. exact I.
Defined.

(** C9 as the spec words it fails on a forum that lists [week1] on two
    pages: the combined file holds its three records twice, and the one
    per-topic file of the run holds them once. *)
Lemma repeated_topic_breaks_the_sum :
  ~ combined_is_sum_over_files Reference.strptime Reference.clean_text Sample.now
      Sample.forum_with_repeat.
Proof.
  intros Hclaim.
  eassert (Hrun : scrape_posts Reference.strptime Reference.clean_text Sample.now
                    Sample.forum_with_repeat 5 empty_world = (Returns tt, _))
    by (vm_compute; reflexivity).
  eassert (Hfile : final_content
                     (writes (snd (scrape_posts Reference.strptime Reference.clean_text
                                     Sample.now Sample.forum_with_repeat 5 empty_world)))
                     combined_output_file = Some (CombinedFile _))
    by (vm_compute; reflexivity).
  rewrite Hrun in Hfile. cbn [snd] in Hfile.
  pose proof (Hclaim 5 empty_world _ _ Hrun Hfile) as H.
  vm_compute in H. discriminate.
Qed.

(** C10, on the second sample forum: [broken] is listed after [week1]. *)
Lemma undated_topic_aborts_run_witness :
  sample_date (t_created_at Sample.broken) = Raise ValueError
  /\ selects Reference.strptime Sample.broken = false
  /\ individual_topic_files Reference.strptime ([Sample.week1] ++ Sample.broken :: [])
     = Raise ValueError
  /\ exists w' written,
       scrape_posts Reference.strptime Reference.clean_text Sample.now
                    Sample.forum_with_broken_topic 5 empty_world = (Raises ValueError, w')
       /\ writes w' = writes empty_world ++ written.
Proof.
  assert (Hbad : sample_date (t_created_at Sample.broken) = Raise ValueError)
    by (vm_compute; reflexivity).
  destruct (undated_topic_aborts_run
              Reference.strptime Reference.clean_text Sample.now
              Sample.forum_with_broken_topic Sample.broken Hbad)
    as (Hsel & _ & Hfiles & Hrun).
  split; [exact Hbad|]. split; [exact Hsel|]. split; [apply Hfiles|].
  destruct (Hrun 5 empty_world
                 {| requests := map paginated_url [0; 1]; writes := [] |}
                 [Sample.week1; Sample.broken])
    as (w' & written & Hraises & Hwrites & _).
  - vm_compute. reflexivity.
  - right. left. reflexivity.
  - exists w', written. split; assumption.
Defined.

(** ** Properties of the session handling *)

Section MainProperties.

Variable strptime : string -> string -> option datetime.
Variable clean_text : string -> string.
Variable now : datetime.
Variable forum : option StorageState -> string -> PageLoad.
Variable wait_for_pre : StorageState -> result unit.
Variable operator : StorageState.
Variable fuel : nat.

Local Abbreviation scrape :=
  (fun state => scrape_posts strptime clean_text now (forum (Some state)) fuel).
Local Abbreviation run_main := (main forum wait_for_pre operator scrape).
Local Abbreviation probe_of := (probe forum wait_for_pre).

Lemma is_authenticated_eq (state : StorageState) (w : World) :
  is_authenticated forum wait_for_pre state w =
    (match probe_of state with
     | Ok _ => Returns true
     | Raise e => if handled e then Returns false else Raises e
     end,
     {| requests := requests w ++ [CATEGORY_JSON_URL]; writes := writes w |}).
Proof.
  unfold is_authenticated, bind, visit.
  destruct (probe_of state) as [u|e]; [reflexivity|]. now destruct (handled e).
Qed.

(** X12: the session is reused exactly when the probe passes. With a
    stored state, [main] first asks for the category page. When the page
    opens, shows its text and the text is JSON, no login takes place: the
    file keeps its state and the scraper runs with it. When one of the
    three steps ends in a timeout or in text that is not JSON, [main] asks
    for the login page once, stores the operator's state in place of the
    old one and runs the scraper with the new state, without probing it. *)
Theorem probe_decides_between_reuse_and_login (state : StorageState) (m : Machine) :
  auth_state m = Some state ->
  (forall u, probe_of state = Ok u ->
     run_main m =
       (fst (scrape state {| requests := requests (world m) ++ [CATEGORY_JSON_URL];
                             writes := writes (world m) |}),
        {| auth_state := Some state;
           world := snd (scrape state {| requests := requests (world m) ++ [CATEGORY_JSON_URL];
                                         writes := writes (world m) |}) |}))
  /\ (forall e u, probe_of state = Raise e -> handled e = true ->
        goto (forum None LOGIN_URL) = Ok u ->
        run_main m =
          (fst (scrape operator
                  {| requests := requests (world m) ++ [CATEGORY_JSON_URL; LOGIN_URL];
                     writes := writes (world m) |}),
           {| auth_state := Some operator;
              world := snd (scrape operator
                              {| requests := requests (world m)
                                             ++ [CATEGORY_JSON_URL; LOGIN_URL];
                                 writes := writes (world m) |}) |})).
Proof.
  intros Hauth. unfold main. rewrite Hauth, is_authenticated_eq. split.
  - intros u Hprobe. rewrite Hprobe. reflexivity.
  - intros e u Hprobe Hhandled Hlogin. rewrite Hprobe, Hhandled.
    unfold login_then_scrape, login_and_save_auth, scrape_with, visit.
    cbn [world snd requests writes auth_state]. rewrite Hlogin.
    cbn [world auth_state]. now rewrite <- app_assoc.
Qed.

(** X13: an error of the probe that is neither a timeout nor a JSON error
    ends [main]. With a stored state whose probe raises such an exception,
    [main] raises it after the one request to the category page: it does
    not log in, it leaves the stored state alone and the scraper never
    starts, so nothing is written. *)
Theorem unhandled_probe_error_ends_main (state : StorageState) (e : exn) (m : Machine) :
  auth_state m = Some state ->
  probe_of state = Raise e ->
  handled e = false ->
  run_main m =
    (Raises e,
     {| auth_state := Some state;
        world := {| requests := requests (world m) ++ [CATEGORY_JSON_URL];
                    writes := writes (world m) |} |}).
Proof.
  intros Hauth Hprobe Hhandled. unfold main.
  now rewrite Hauth, is_authenticated_eq, Hprobe, Hhandled.
Qed.

(** X14: a login page that does not open ends [main]. Whether there was
    no stored state or the stored one failed the probe, [main] raises the
    exception of the login page; the file is left as it was (missing, or
    with the rejected state) and the scraper never starts, so nothing is
    written. *)
Theorem login_failure_ends_main (e : exn) (m : Machine) :
  goto (forum None LOGIN_URL) = Raise e ->
  (auth_state m = None
   \/ exists state e', auth_state m = Some state
        /\ probe_of state = Raise e' /\ handled e' = true) ->
  fst (run_main m) = Raises e
  /\ auth_state (snd (run_main m)) = auth_state m
  /\ writes (world (snd (run_main m))) = writes (world m).
Proof.
  intros Hlogin [Hauth|(state & e' & Hauth & Hprobe & Hhandled)]; unfold main; rewrite Hauth.
  - unfold login_then_scrape, login_and_save_auth. rewrite Hlogin. cbn. auto.
  - rewrite is_authenticated_eq, Hprobe, Hhandled.
    unfold login_then_scrape, login_and_save_auth. rewrite Hlogin. cbn. auto.
Qed.

(** X15: [main] scrapes with what the file holds, after at most one probe
    and one login. Whatever the machine, either [main] raises before the
    scraper starts, and then the stored state and the files written are
    as before; or the scraper runs exactly once, in a world that differs
    from the initial one by the requests of a login, of a probe, or of a
    probe followed by a login, and with the state that the file holds in
    the end: the operator's after a login, the old one otherwise. *)
Theorem main_scrapes_with_the_stored_state (m : Machine) :
  (exists e, fst (run_main m) = Raises e
             /\ auth_state (snd (run_main m)) = auth_state m
             /\ writes (world (snd (run_main m))) = writes (world m))
  \/ exists state before,
       In before [[LOGIN_URL]; [CATEGORY_JSON_URL]; [CATEGORY_JSON_URL; LOGIN_URL]]
       /\ auth_state (snd (run_main m)) = Some state
       /\ (In LOGIN_URL before -> state = operator)
       /\ (~ In LOGIN_URL before -> auth_state m = Some state)
       /\ (fst (run_main m), world (snd (run_main m)))
          = scrape state {| requests := requests (world m) ++ before;
                            writes := writes (world m) |}.
Proof.
  assert (Hne : LOGIN_URL <> CATEGORY_JSON_URL) by (vm_compute; discriminate).
  unfold main. destruct (auth_state m) as [state|] eqn:Hauth.
  - rewrite is_authenticated_eq.
    destruct (probe_of state) as [u|e] eqn:Hprobe.
    + right. exists state, [CATEGORY_JSON_URL]. unfold scrape_with.
      cbn [fst snd world auth_state In].
      split; [tauto|]. split; [reflexivity|]. split; [intros [H|[]]; congruence|].
      split; [reflexivity|]. now destruct (scrape_posts _ _ _ _ _ _).
    + destruct (handled e) eqn:Hhandled.
      * unfold login_then_scrape, login_and_save_auth, visit.
        cbn [world snd requests writes auth_state].
        destruct (goto (forum None LOGIN_URL)) as [u|e'].
        -- right. exists operator, [CATEGORY_JSON_URL; LOGIN_URL]. unfold scrape_with.
           cbn [fst snd world auth_state In]. rewrite <- app_assoc. cbn [app].
           split; [tauto|]. split; [reflexivity|]. split; [reflexivity|].
           split; [tauto|]. now destruct (scrape_posts _ _ _ _ _ _).
        -- left. exists e'. cbn. auto.
      * left. exists e. cbn. auto.
  - unfold login_then_scrape, login_and_save_auth, visit.
    cbn [world snd requests writes auth_state]. rewrite Hauth.
    destruct (goto (forum None LOGIN_URL)) as [u|e'].
    + right. exists operator, [LOGIN_URL]. unfold scrape_with.
      cbn [fst snd world auth_state In].
      split; [tauto|]. split; [reflexivity|]. split; [reflexivity|].
      split; [tauto|]. now destruct (scrape_posts _ _ _ _ _ _).
    + left. exists e'. cbn. auto.
Qed.

End MainProperties.

(** ** The further properties, on the sample forums *)

Local Abbreviation reference_run :=
  (scrape_posts Reference.strptime Reference.clean_text Sample.now).
Local Abbreviation sample_main :=
  (main Sample.sessions_with_category Sample.pre_shown "fresh"
        (fun state => reference_run (Sample.sessions_with_category (Some state)) 5)).
Local Abbreviation sample_probe := (probe Sample.sessions_with_category Sample.pre_shown).

Lemma sample_dated : Forall (well_dated Reference.strptime) Sample.all_topics.
Proof. repeat constructor; eexists; vm_compute; reflexivity. Qed.

(** X1, on a forum whose page 1 times out. *)
Lemma listing_error_ends_run_witness :
  goto (Sample.forum_with_broken_page (paginated_url 1)) = Raise TimeoutError
  /\ reference_run Sample.forum_with_broken_page 5 empty_world =
       (Raises TimeoutError,
        {| requests := requests empty_world ++ map paginated_url (seq 0 2);
           writes := writes empty_world |}).
Proof.
  assert (Hfail : goto (Sample.forum_with_broken_page (paginated_url 1)) = Raise TimeoutError)
    by (vm_compute; reflexivity).
  split; [exact Hfail|].
  apply (listing_error_ends_run Reference.strptime Reference.clean_text Sample.now
           Sample.forum_with_broken_page Sample.pages TimeoutError 1 5 empty_world).
  - intros [|k] Hk; [|lia]. split; [vm_compute; reflexivity | discriminate].
  - left. exact Hfail.
  - lia.
Defined.

(** X2, on a forum without a last page. *)
Lemma listing_has_no_page_limit_witness :
  (forall k, k < 3 ->
     page_body Sample.endless k = Ok (Sample.listing [Sample.week1])
     /\ topics_field (Sample.listing [Sample.week1]) <> [])
  /\ reference_run Sample.endless 3 empty_world =
       (Running,
        {| requests := requests empty_world ++ map paginated_url (seq 0 3);
           writes := writes empty_world |}).
Proof.
  assert (Hfull : forall k, k < 3 ->
            page_body Sample.endless k = Ok (Sample.listing [Sample.week1])
            /\ topics_field (Sample.listing [Sample.week1]) <> []).
  { intros k _. split; [reflexivity | discriminate]. }
  split; [exact Hfull|].
  exact (listing_has_no_page_limit Reference.strptime Reference.clean_text Sample.now
           Sample.endless (fun _ => Sample.listing [Sample.week1]) 3 empty_world Hfull).
Defined.

(** X3, on the sample forum. *)
Lemma requests_of_a_run_witness :
  (forall k, k <= 2 -> page_body Sample.forum k = Ok (Sample.pages k))
  /\ exists w',
       sample_run 5 empty_world = (Returns tt, w')
       /\ requests w' =
            requests empty_world ++ map paginated_url (seq 0 3) ++
            map topic_url
                (List.filter (selects Reference.strptime)
                   (concat (map (fun k => topics_field (Sample.pages k)) (seq 0 2)))).
Proof.
  assert (Hpages : forall k, k <= 2 -> page_body Sample.forum k = Ok (Sample.pages k)).
  { intros [|[|[|k]]] Hk; [vm_compute; reflexivity .. | lia]. }
  split; [exact Hpages|].
  destruct (requests_of_a_run Reference.strptime Reference.clean_text Sample.now
              Sample.forum Sample.pages 2 5 empty_world Hpages)
    as (w' & Hrun & Hrequests & _).
  - intros [|[|k]] Hk; [discriminate | discriminate | lia].
  - reflexivity.
  - lia.
  - exact sample_dated.
  - exists w'. split; assumption.
Defined.

(** X4, on the sample forum, with a file of an earlier run in place. *)
Lemma files_after_a_run_witness :
  list_topics Sample.forum 5 0 []
    {| requests := [];
       writes := [(path_join OUTPUT_DIR "topic_9.json", CombinedFile [])] |}
  = (Returns Sample.all_topics,
     {| requests := requests Sample.listed;
        writes := [(path_join OUTPUT_DIR "topic_9.json", CombinedFile [])] |})
  /\ exists w',
       sample_run 5 {| requests := [];
                       writes := [(path_join OUTPUT_DIR "topic_9.json", CombinedFile [])] |}
       = (Returns tt, w')
       /\ final_content (writes w') (path_join OUTPUT_DIR "topic_9.json")
          = Some (CombinedFile []).
Proof.
  assert (Hlist : list_topics Sample.forum 5 0 []
            {| requests := [];
               writes := [(path_join OUTPUT_DIR "topic_9.json", CombinedFile [])] |}
          = (Returns Sample.all_topics,
             {| requests := requests Sample.listed;
                writes := [(path_join OUTPUT_DIR "topic_9.json", CombinedFile [])] |}))
    by (vm_compute; reflexivity).
  split; [exact Hlist|].
  destruct (files_after_a_run Reference.strptime Reference.clean_text Sample.now
              Sample.forum 5 _ _ _ Hlist sample_dated)
    as (w' & combined & summary & Hrun & _ & _ & _ & _ & _ & _ & Hkept).
  exists w'. split; [exact Hrun|].
  rewrite (Hkept (path_join OUTPUT_DIR "topic_9.json")).
  - vm_compute. reflexivity.
  - vm_compute. discriminate.
  - vm_compute. discriminate.
  - intros topic Hin Hsel Hread Hpath.
    change (path_join OUTPUT_DIR "topic_9.json")
      with (path_join OUTPUT_DIR (topic_filename Sample.first_day)) in Hpath.
    apply topic_path_inj in Hpath.
    destruct Hin as [<-|[<-|[<-|[<-|[<-|[]]]]]]; try discriminate Hpath.
    apply Hread. vm_compute. reflexivity.
Defined.

(** X5, on the sample forum. *)
Lemma summary_covers_written_files_witness :
  list_topics Sample.forum 5 0 [] empty_world = (Returns Sample.all_topics, Sample.listed)
  /\ exists w' summary,
       sample_run 5 empty_world = (Returns tt, w')
       /\ summary_of w' = Some summary
       /\ total_topics summary = length (individual_topics summary).
Proof.
  split; [exact sample_listing|].
  destruct (summary_covers_written_files Reference.strptime Reference.clean_text Sample.now
              Sample.forum 5 empty_world _ _ sample_listing sample_dated)
    as (w' & written & combined & summary & Hrun & _ & Hsummary & Htotal & _).
  exists w', summary. split; [exact Hrun|]. split; assumption.
Defined.

(** X6, on the sample forum. *)
Lemma topic_file_is_consistent_witness :
  sample_step ([], 0) Sample.week1 empty_world =
    (Returns (Sample.week1_records, 1),
     {| requests := [topic_url Sample.week1];
        writes := [(path_join OUTPUT_DIR "topic_7.json",
                    TopicFile (make_topic_metadata Sample.week1 Sample.week1_records)
                              Sample.week1_records)] |})
  /\ (writes {| requests := [topic_url Sample.week1];
                writes := [(path_join OUTPUT_DIR "topic_7.json",
                            TopicFile (make_topic_metadata Sample.week1 Sample.week1_records)
                                      Sample.week1_records)] |}
      = writes empty_world
      \/ exists metadata records,
           [(path_join OUTPUT_DIR "topic_7.json",
             TopicFile (make_topic_metadata Sample.week1 Sample.week1_records)
                       Sample.week1_records)]
           = writes empty_world ++ [(path_join OUTPUT_DIR (topic_filename Sample.week1),
                                     TopicFile metadata records)]
           /\ records <> [] /\ 1 <= posts_count metadata).
Proof.
  split; [exact sample_week1_step|].
  destruct (topic_file_is_consistent Reference.strptime Reference.clean_text Sample.forum
              Sample.week1 ([], 0) empty_world _ _ sample_week1_step)
    as [Hsame|(metadata & records & Hwrites & Hne & Hcount & _)].
  - left. exact Hsame.
  - right. exists metadata, records. split; [exact Hwrites|]. split; assumption.
Defined.

(** X7, on the posts of [week1], whose numbers are 1 to 4. *)
Lemma records_follow_the_stream_witness :
  NoDup (omap p_post_number Sample.week1_posts)
  /\ NoDup (map post_number
              (fst (fold_left (post_step Reference.clean_text Sample.week1 ∅ None)
                              Sample.week1_posts ([], [])))).
Proof.
  assert (Hnumbers : NoDup (omap p_post_number Sample.week1_posts)).
  { apply (bool_decide_unpack _). vm_compute. exact I. }
  split; [exact Hnumbers|].
  exact (proj2 (proj2 (proj2 (records_follow_the_stream Reference.clean_text Sample.week1
                                ∅ None Sample.week1_posts []))) Hnumbers).
Defined.



(** X10, one second into 14 April 2025. *)
Lemma date_range_on_fields_witness :
  plausible (Datetime 2025 4 14 0 0 1 0)
  /\ in_range (Datetime 2025 4 14 0 0 1 0) = false.
Proof.
  assert (Hd : plausible (Datetime 2025 4 14 0 0 1 0)) by (unfold plausible; cbn; lia).
  split; [exact Hd|].
  destruct (in_range (Datetime 2025 4 14 0 0 1 0)) eqn:Hin; [|reflexivity].
  apply (date_range_on_fields (Datetime 2025 4 14 0 0 1 0) Hd) in Hin.
  cbn in Hin. lia.
Defined.

(** X11, on a forum that lists [week1] on two pages. *)
Lemma repeated_topic_is_recorded_twice_witness :
  list_topics Sample.forum_with_repeat 5 0 [] empty_world
  = (Returns ([] ++ Sample.week1 :: [] ++ Sample.week1 :: []), Sample.listed)
  /\ selects Reference.strptime Sample.week1 = true
  /\ exists w' before between after,
       reference_run Sample.forum_with_repeat 5 empty_world = (Returns tt, w')
       /\ final_content (writes w') combined_output_file
          = Some (CombinedFile
                    (before
                     ++ topic_records Reference.clean_text Sample.forum_with_repeat
                                      Sample.week1
                     ++ between
                     ++ topic_records Reference.clean_text Sample.forum_with_repeat
                                      Sample.week1
                     ++ after)).
Proof.
  assert (Hlist : list_topics Sample.forum_with_repeat 5 0 [] empty_world
                  = (Returns ([] ++ Sample.week1 :: [] ++ Sample.week1 :: []), Sample.listed))
    by (vm_compute; reflexivity).
  assert (Hsel : selects Reference.strptime Sample.week1 = true) by (vm_compute; reflexivity).
  split; [exact Hlist|]. split; [exact Hsel|].
  destruct (repeated_topic_is_recorded_twice Reference.strptime Reference.clean_text
              Sample.now Sample.forum_with_repeat 5 empty_world _ Sample.week1 [] [] []
              Hlist)
    as (w' & before & between & after & Hrun & Hcombined & _).
  - repeat constructor; eexists; vm_compute; reflexivity.
  - exact Hsel.
  - exists w', before, between, after. split; assumption.
Defined.

(** X12, with a stored state that gets the login page. *)
Lemma probe_decides_between_reuse_and_login_witness :
  sample_probe "stale" = Raise TimeoutError
  /\ auth_state (snd (sample_main {| auth_state := Some "stale"; world := empty_world |}))
     = Some "fresh"
  /\ sample_probe "fresh" = Ok tt
  /\ auth_state (snd (sample_main {| auth_state := Some "fresh"; world := empty_world |}))
     = Some "fresh".
Proof.
  assert (Hstale : sample_probe "stale" = Raise TimeoutError) by (vm_compute; reflexivity).
  assert (Hfresh : sample_probe "fresh" = Ok tt) by (vm_compute; reflexivity).
  split; [exact Hstale|]. split; [|split; [exact Hfresh|]].
  - rewrite (proj2 (probe_decides_between_reuse_and_login
                      Reference.strptime Reference.clean_text Sample.now
                      Sample.sessions_with_category Sample.pre_shown "fresh" 5
                      "stale" {| auth_state := Some "stale"; world := empty_world |} eq_refl)
                   TimeoutError tt Hstale eq_refl eq_refl).
    reflexivity.
  - rewrite (proj1 (probe_decides_between_reuse_and_login
                      Reference.strptime Reference.clean_text Sample.now
                      Sample.sessions_with_category Sample.pre_shown "fresh" 5
                      "fresh" {| auth_state := Some "fresh"; world := empty_world |} eq_refl)
                   tt Hfresh).
    reflexivity.
Defined.

(** X13, with a stored state whose probe fails with another error. *)
Lemma unhandled_probe_error_ends_main_witness :
  sample_probe "blocked" = Raise ValueError
  /\ handled ValueError = false
  /\ sample_main {| auth_state := Some "blocked"; world := empty_world |} =
       (Raises ValueError,
        {| auth_state := Some "blocked";
           world := {| requests := requests empty_world ++ [CATEGORY_JSON_URL];
                       writes := writes empty_world |} |}).
Proof.
  assert (Hprobe : sample_probe "blocked" = Raise ValueError) by (vm_compute; reflexivity).
  split; [exact Hprobe|]. split; [reflexivity|].
  exact (unhandled_probe_error_ends_main
           Reference.strptime Reference.clean_text Sample.now
           Sample.sessions_with_category Sample.pre_shown "fresh" 5
           "blocked" ValueError {| auth_state := Some "blocked"; world := empty_world |}
           eq_refl Hprobe eq_refl).
Defined.

(** X14, without a network and without a stored state. *)
Lemma login_failure_ends_main_witness :
  goto (Sample.offline None LOGIN_URL) = Raise TimeoutError
  /\ fst (main Sample.offline Sample.pre_shown "fresh"
               (fun state => reference_run (Sample.offline (Some state)) 5)
               {| auth_state := None; world := empty_world |}) = Raises TimeoutError.
Proof.
  split; [reflexivity|].
  apply (login_failure_ends_main
           Reference.strptime Reference.clean_text Sample.now
           Sample.offline Sample.pre_shown "fresh" 5
           TimeoutError {| auth_state := None; world := empty_world |} eq_refl).
  left. reflexivity.
Defined.
